(** * Anchor-based text patching: [rewrite_cut.py] and [temp_fix.py]

    Both scripts read one file as text, look for literal anchor substrings
    with [str.find] / [str.index] / [str.rfind], cut the text with slices
    and write the result back to the same path.

    The development has three layers:
    - [PyStr]: the Python [str] operations the scripts call, over an
      arbitrary character type with decidable equality, with their
      specification in terms of occurrences of a substring;
    - the scripts themselves, statement by statement, in a small
      state-and-exception monad over a store of text files;
    - the properties of the two operations the scripts implement
      ([truncateAt], [spliceBetween]). *)

From stdpp Require Import base decidable option list strings gmap.
From Stdlib Require Import ZArith Lia.

Local Open Scope Z_scope.

(** ** Python [str] operations *)

Module PyStr.

Section ops.
Context {char : Type} `{!EqDecision char}.

Implicit Types s sub : list char.

(** [s.find(sub)]: the lowest index at which [sub] starts in [s], or
    [-1].  [find_from i] scans a tail of the text whose first character
    sits at index [i] of the whole text. *)
Fixpoint find_from (i : Z) (s sub : list char) : Z :=
  if decide (sub `prefix_of` s) then i
  else match s with
       | [] => -1
       | _ :: s' => find_from (i + 1) s' sub
       end.

Definition find (s sub : list char) : Z := find_from 0 s sub.

(** [s.rfind(sub)]: the highest index at which [sub] starts in [s], or
    [-1].  The empty substring is found at [len(s)]. *)
Fixpoint rfind_from (i : Z) (s sub : list char) : Z :=
  match s with
  | [] => if decide (sub `prefix_of` []) then i else -1
  | _ :: s' =>
      let r := rfind_from (i + 1) s' sub in
      if decide (r = -1)
      then (if decide (sub `prefix_of` s) then i else -1)
      else r
  end.

Definition rfind (s sub : list char) : Z := rfind_from 0 s sub.

(** [s.index(sub)]: as [find], but a miss raises [ValueError]; [None]
    stands for the raise, the caller attaches the exception. *)
Definition index (s sub : list char) : option Z :=
  let i := find s sub in
  if decide (i = -1) then None else Some i.

(** Slice bounds: a negative bound counts from the end, and every bound
    is clamped into [0 .. len]. *)
Definition adjust (len : Z) (i : Z) : Z :=
  if decide (i < 0) then Z.max 0 (i + len) else Z.min i len.

(** [s[:stop]] *)
Definition slice_to (s : list char) (stop : Z) : list char :=
  take (Z.to_nat (adjust (Z.of_nat (length s)) stop)) s.

(** [s[start:]] *)
Definition slice_from (s : list char) (start : Z) : list char :=
  drop (Z.to_nat (adjust (Z.of_nat (length s)) start)) s.

(** *** Occurrences of a substring *)

(** [sub] starts at offset [i] of [s]. *)
Definition occurs_at (sub s : list char) (i : nat) : Prop :=
  ∃ pre post, s = pre ++ sub ++ post ∧ length pre = i.

Definition occurs (sub s : list char) : Prop := ∃ i, occurs_at sub s i.

Definition first_occ (sub s : list char) (i : nat) : Prop :=
  occurs_at sub s i ∧ ∀ j, occurs_at sub s j → (i ≤ j)%nat.

Definition last_occ (sub s : list char) (i : nat) : Prop :=
  occurs_at sub s i ∧ ∀ j, occurs_at sub s j → (j ≤ i)%nat.

End ops.

End PyStr.

(** ** Text, files and exceptions *)

(** A Python [str] is a sequence of Unicode code points. *)
Abbreviation codepoint := N (only parsing).
Abbreviation str := (list N) (only parsing).

(** The code points of an ASCII literal of the scripts. *)
Definition lit (s : string) : str := Ascii.N_of_ascii <$> String.list_ascii_of_string s.

(** The double quote and the line feed written [\n] in the literals. *)
Definition dquote : str := [34%N].
Definition newline : str := [10%N].

(** The exceptions the two scripts can end with. *)
Inductive exn : Type :=
  | SystemExit (arg : string)
  | ValueError (msg : string)
  | FileNotFoundError (filename : string).

Inductive result (A : Type) : Type :=
  | Ok (a : A)
  | Raise (e : exn).
Arguments Ok {A} a.
Arguments Raise {A} e.

(** The store of text files: each path that exists is mapped to the text
    [Path.read_text(encoding='utf-8')] returns for it. *)
Abbreviation filesystem := (gmap string (list N)) (only parsing).

(** A script run threads the file store and stops at the first raise. *)
Definition script (A : Type) : Type := filesystem → result A * filesystem.

Global Instance script_ret : MRet script := λ A a fs, (Ok a, fs).

Global Instance script_bind : MBind script := λ A B k m fs,
  match m fs with
  | (Ok a, fs') => k a fs'
  | (Raise e, fs') => (Raise e, fs')
  end.

Definition raise {A : Type} (e : exn) : script A := λ fs, (Raise e, fs).

(** [Path(path).read_text(encoding='utf-8')] *)
Definition read_text (path : string) : script str := λ fs,
  match fs !! path with
  | Some text => (Ok text, fs)
  | None => (Raise (FileNotFoundError path), fs)
  end.

(** [Path(path).write_text(data, encoding='utf-8')]: the file is replaced
    as a whole; the character count it returns is dropped by both
    scripts. *)
Definition write_text (path : string) (data : str) : script unit := λ fs,
  (Ok tt, <[path := data]> fs).

(** [str.index] with its exception. *)
Definition str_index (s sub : str) : script Z :=
  match PyStr.index s sub with
  | Some i => mret i
  | None => raise (ValueError "substring not found")
  end.

(** The exit status of the interpreter: [0] after the last statement, [1]
    for an uncaught exception, also for [SystemExit] raised with a string
    (which is printed on standard error). *)
Definition exit_status {A : Type} (r : result A) : Z :=
  match r with
  | Ok _ => 0
  | Raise _ => 1
  end.

(** ** [rewrite_cut.py] *)

Definition rewrite_cut_path : string :=
  "components/campaign-planning/CampaignPlanningDrawer.tsx".

Definition needle : str :=
  lit "              <section className=" ++ dquote
  ++ lit "rounded-2xl border border-[color:var(--color-border)] bg-[color:var(--color-surface)] p-5 shadow-[0_1px_2px_rgba(16,24,40,0.06)]"
  ++ dquote ++ lit ">" ++ newline.

(** The statements of the script, for any path and needle. *)
Definition cut_script (path : string) (needle : str) : script unit :=
  text ← read_text path;
  let pos := PyStr.find text needle in
  if decide (pos = -1)
  then raise (SystemExit "needle not found")
  else write_text path (PyStr.slice_to text pos).

Definition rewrite_cut : script unit := cut_script rewrite_cut_path needle.

(** What the script computes from the text it has read: the text handed
    to [write_text], or the exception. *)
Definition truncateAt (document locator : str) : result str :=
  let pos := PyStr.find document locator in
  if decide (pos = -1)
  then Raise (SystemExit "needle not found")
  else Ok (PyStr.slice_to document pos).

(** ** [temp_fix.py] *)

Definition temp_fix_path : string := "components/crm/CrmGenerateUnitsModal.tsx".

Definition start_locator : str :=
  lit "{activeSubtab === " ++ dquote ++ lit "audience" ++ dquote.

Definition footer_locator : str :=
  lit "            <div className=" ++ dquote
  ++ lit "flex justify-between items-center pt-2" ++ dquote ++ lit ">".

(** The statements of the script, for any path, pair of locators and
    replacement block. *)
Definition fix_script (p : string) (start_loc footer_loc new_block : str)
    : script unit :=
  text ← read_text p;
  start ← str_index text start_loc;
  let footer := PyStr.rfind text footer_loc in
  let prefix := PyStr.slice_to text start in
  let suffix := PyStr.slice_from text footer in
  write_text p (prefix ++ new_block ++ suffix).

(** [new_block] is the markup literal of lines 8 to 398; the script only
    concatenates it, so it is left as an argument. *)
Definition temp_fix (new_block : str) : script unit :=
  fix_script temp_fix_path start_locator footer_locator new_block.

(** A small document that holds the start locator and no footer, used to
    run the script on. *)
Definition sample_modal : str :=
  lit "<p>" ++ start_locator ++ lit " ? 1 : 2}</p>".

(** What the script computes from the text it has read. *)
Definition spliceBetween (document startLocator endLocator patch : str)
    : result str :=
  match PyStr.index document startLocator with
  | None => Raise (ValueError "substring not found")
  | Some start =>
      let footer := PyStr.rfind document endLocator in
      let prefix := PyStr.slice_to document start in
      let suffix := PyStr.slice_from document footer in
      Ok (prefix ++ patch ++ suffix)
  end.

(** Writing a computed document back, or passing the exception on. *)
Definition persist (origin : string) (r : result str) : script unit :=
  match r with
  | Ok document => write_text origin document
  | Raise e => raise e
  end.

(** ** The replacement block of [temp_fix.py] *)

(** The text between the triple quotes of lines 8 to 398, one entry per
    line: the rest of line 8 after the opening quotes (empty), then lines
    9 to 397.  In the literal each of them is followed by a line feed. *)
Definition new_block_lines : list str := [
  [];
  lit "            {activeSubtab === " ++ dquote ++ lit "audience" ++ dquote ++ lit " ? (";
  lit "            <section className=" ++ dquote ++ lit "space-y-3" ++ dquote ++ lit ">";
  lit "              <h3 className=" ++ dquote ++ lit "text-sm font-semibold text-[color:var(--color-text)]" ++ dquote ++ lit ">";
  lit "                Audience & send date";
  lit "              </h3>";
  [];
  lit "              <div className=" ++ dquote ++ lit "grid grid-cols-1 gap-3 md:grid-cols-3" ++ dquote ++ lit ">";
  lit "                <div className=" ++ dquote ++ lit "space-y-1" ++ dquote ++ lit ">";
  lit "                  <label className=" ++ dquote ++ lit "text-xs font-medium text-[color:var(--color-text)]/70" ++ dquote ++ lit ">";
  lit "                    Scope";
  lit "                  </label>";
  lit "                  <select";
  lit "                    className=" ++ dquote ++ lit "input h-9 w-full" ++ dquote;
  lit "                    value={scope}";
  lit "                    onChange={(e) => setScope(e.target.value)}";
  lit "                  >";
  lit "                    <option value=" ++ dquote ++ lit "Global" ++ dquote ++ lit ">Global</option>";
  lit "                    <option value=" ++ dquote ++ lit "Local" ++ dquote ++ lit ">Local</option>";
  lit "                  </select>";
  lit "                </div>";
  lit "                <div className=" ++ dquote ++ lit "space-y-1" ++ dquote ++ lit ">";
  lit "                  <label className=" ++ dquote ++ lit "text-xs font-medium text-[color:var(--color-text)]/70" ++ dquote ++ lit ">";
  lit "                    Default status";
  lit "                  </label>";
  lit "                  <select";
  lit "                    className=" ++ dquote ++ lit "input h-9 w-full" ++ dquote;
  lit "                    value={status}";
  lit "                    onChange={(e) => setStatus(e.target.value)}";
  lit "                  >";
  lit "                    <option value=" ++ dquote ++ lit "Planned" ++ dquote ++ lit ">Planned</option>";
  lit "                    <option value=" ++ dquote ++ lit "Sent" ++ dquote ++ lit ">Sent</option>";
  lit "                    <option value=" ++ dquote ++ lit "Done" ++ dquote ++ lit ">Done</option>";
  lit "                  </select>";
  lit "                </div>";
  lit "                <div className=" ++ dquote ++ lit "space-y-1" ++ dquote ++ lit ">";
  lit "                  <label className=" ++ dquote ++ lit "text-xs font-medium text-[color:var(--color-text)]/70" ++ dquote ++ lit ">";
  lit "                    Sending date";
  lit "                  </label>";
  lit "                  <input";
  lit "                    type=" ++ dquote ++ lit "date" ++ dquote;
  lit "                    className=" ++ dquote ++ lit "input input-date h-9 w-full" ++ dquote;
  lit "                    value={sendDate}";
  lit "                    onChange={(e) => setSendDate(e.target.value)}";
  lit "                    title=" ++ dquote ++ lit "Applied to all generated rows" ++ dquote;
  lit "                  />";
  lit "                </div>";
  lit "              </div>";
  [];
  lit "              <div className=" ++ dquote ++ lit "grid grid-cols-1 gap-4 md:grid-cols-2" ++ dquote ++ lit ">";
  lit "                <div className=" ++ dquote ++ lit "space-y-4" ++ dquote ++ lit ">";
  lit "                  <div className=" ++ dquote ++ lit "space-y-2" ++ dquote ++ lit ">";
  lit "                    <div className=" ++ dquote ++ lit "flex items-center justify-between gap-2" ++ dquote ++ lit ">";
  lit "                      <label className=" ++ dquote ++ lit "text-xs font-semibold text-[color:var(--color-text)]" ++ dquote ++ lit ">";
  lit "                        Markets";
  lit "                      </label>";
  lit "                      <div className=" ++ dquote ++ lit "flex items-center gap-2 text-[11px]" ++ dquote ++ lit ">";
  lit "                        <button";
  lit "                          type=" ++ dquote ++ lit "button" ++ dquote;
  lit "                          className=" ++ dquote ++ lit "btn-ghost h-8 px-2 text-xs" ++ dquote;
  lit "                          onClick={() => setSelectedMarkets(brandMarkets)}";
  lit "                          disabled={!brand || brandMarkets.length === 0}";
  lit "                        >";
  lit "                          Select all";
  lit "                        </button>";
  lit "                        <button";
  lit "                          type=" ++ dquote ++ lit "button" ++ dquote;
  lit "                          className=" ++ dquote ++ lit "btn-ghost h-8 px-2 text-xs" ++ dquote;
  lit "                          onClick={() => setSelectedMarkets([])}";
  lit "                        >";
  lit "                          Clear";
  lit "                        </button>";
  lit "                      </div>";
  lit "                    </div>";
  lit "                    <input";
  lit "                      className=" ++ dquote ++ lit "input h-9 w-full" ++ dquote;
  lit "                      placeholder={brand ? " ++ dquote ++ lit "Search or add markets (AU, NZ...)" ++ dquote ++ lit " : " ++ dquote ++ lit "Select a brand first" ++ dquote ++ lit "}";
  lit "                      value={marketsSearch}";
  lit "                      onChange={(e) => setMarketsSearch(e.target.value)}";
  lit "                      disabled={!brand}";
  lit "                    />";
  lit "                    {brand ? (";
  lit "                      <div className=" ++ dquote ++ lit "flex flex-wrap gap-2" ++ dquote ++ lit ">";
  lit "                        {brandMarkets";
  lit "                          .filter((m) =>";
  lit "                            marketsSearch";
  lit "                              ? m.toLowerCase().includes(marketsSearch.toLowerCase())";
  lit "                              : true,";
  lit "                          )";
  lit "                          .map((m) => {";
  lit "                            const selected = markets.includes(m);";
  lit "                            return (";
  lit "                              <button";
  lit "                                type=" ++ dquote ++ lit "button" ++ dquote;
  lit "                                key={m}";
  lit "                                className={";
  lit "                                  " ++ dquote ++ lit "rounded-full border px-3 py-1 text-xs transition " ++ dquote ++ lit " +";
  lit "                                  (selected";
  lit "                                    ? " ++ dquote ++ lit "border-[color:var(--color-accent)] bg-[color:var(--color-accent)]/10 text-[color:var(--color-text)]" ++ dquote;
  lit "                                    : " ++ dquote ++ lit "border-[color:var(--color-border)] text-[color:var(--color-text)]/80 hover:border-[color:var(--color-accent)]" ++ dquote ++ lit ")";
  lit "                                }";
  lit "                                onClick={() =>";
  lit "                                  setSelectedMarkets((prev) =>";
  lit "                                    prev.includes(m) ? prev.filter((x) => x !== m) : [...prev, m],";
  lit "                                  )";
  lit "                                }";
  lit "                              >";
  lit "                                {m}";
  lit "                              </button>";
  lit "                            );";
  lit "                          })}";
  lit "                      </div>";
  lit "                    ) : (";
  lit "                      <p className=" ++ dquote ++ lit "text-xs text-[color:var(--color-text)]/60" ++ dquote ++ lit ">";
  lit "                        Select a brand to load the available markets.";
  lit "                      </p>";
  lit "                    )}";
  lit "                    <div className=" ++ dquote ++ lit "flex gap-2" ++ dquote ++ lit ">";
  lit "                      <input";
  lit "                        className=" ++ dquote ++ lit "input h-9 flex-1" ++ dquote;
  lit "                        placeholder=" ++ dquote ++ lit "Add custom market (e.g., MX)" ++ dquote;
  lit "                        value={customMarket}";
  lit "                        onChange={(e) => setCustomMarket(e.target.value.toUpperCase())}";
  lit "                        disabled={!brand}";
  lit "                      />";
  lit "                      <button";
  lit "                        type=" ++ dquote ++ lit "button" ++ dquote;
  lit "                        className=" ++ dquote ++ lit "btn-ghost h-9 px-3 text-xs" ++ dquote;
  lit "                        disabled={!brand}";
  lit "                        onClick={() => {";
  lit "                          const norm = normalizeMarket(customMarket);";
  lit "                          if (!norm) return;";
  lit "                          setSelectedMarkets((prev) => (prev.includes(norm) ? prev : [...prev, norm]));";
  lit "                          setCustomMarket(" ++ dquote ++ dquote ++ lit ");";
  lit "                        }}";
  lit "                      >";
  lit "                        Add";
  lit "                      </button>";
  lit "                    </div>";
  lit "                    {markets.length ? (";
  lit "                      <div className=" ++ dquote ++ lit "flex flex-wrap gap-1 text-[11px]" ++ dquote ++ lit ">";
  lit "                        {markets.map((m) => (";
  lit "                          <span";
  lit "                            key={m}";
  lit "                            className=" ++ dquote ++ lit "inline-flex items-center gap-1 rounded-full bg-[color:var(--color-surface)] px-2 py-0.5" ++ dquote;
  lit "                          >";
  lit "                            {m}";
  lit "                            <button";
  lit "                              type=" ++ dquote ++ lit "button" ++ dquote;
  lit "                              className=" ++ dquote ++ lit "text-[color:var(--color-accent)]" ++ dquote;
  lit "                              onClick={() =>";
  lit "                                setSelectedMarkets((prev) => prev.filter((x) => x !== m))";
  lit "                              }";
  lit "                            >";
  lit "                              x";
  lit "                            </button>";
  lit "                          </span>";
  lit "                        ))}";
  lit "                      </div>";
  lit "                    ) : (";
  lit "                      <p className=" ++ dquote ++ lit "text-[11px] text-[color:var(--color-text)]/60" ++ dquote ++ lit ">";
  lit "                        No markets selected. At least one is required.";
  lit "                      </p>";
  lit "                    )}";
  lit "                  </div>";
  [];
  lit "                  <div className=" ++ dquote ++ lit "space-y-2" ++ dquote ++ lit ">";
  lit "                    <div className=" ++ dquote ++ lit "flex items-center justify-between gap-2" ++ dquote ++ lit ">";
  lit "                      <label className=" ++ dquote ++ lit "text-xs font-semibold text-[color:var(--color-text)]" ++ dquote ++ lit ">";
  lit "                        Segments (optional)";
  lit "                      </label>";
  lit "                      <div className=" ++ dquote ++ lit "flex items-center gap-2 text-[11px]" ++ dquote ++ lit ">";
  lit "                        <button";
  lit "                          type=" ++ dquote ++ lit "button" ++ dquote;
  lit "                          className=" ++ dquote ++ lit "btn-ghost h-8 px-2 text-xs" ++ dquote;
  lit "                          onClick={() => setSelectedSegments(brandSegments)}";
  lit "                          disabled={!brand || brandSegments.length === 0}";
  lit "                        >";
  lit "                          Select all";
  lit "                        </button>";
  lit "                        <button";
  lit "                          type=" ++ dquote ++ lit "button" ++ dquote;
  lit "                          className=" ++ dquote ++ lit "btn-ghost h-8 px-2 text-xs" ++ dquote;
  lit "                          onClick={() => setSelectedSegments([])}";
  lit "                        >";
  lit "                          Clear";
  lit "                        </button>";
  lit "                      </div>";
  lit "                    </div>";
  lit "                    <input";
  lit "                      className=" ++ dquote ++ lit "input h-9 w-full" ++ dquote;
  lit "                      placeholder={brand ? " ++ dquote ++ lit "Search or add segments" ++ dquote ++ lit " : " ++ dquote ++ lit "Select a brand first" ++ dquote ++ lit "}";
  lit "                      value={segmentsSearch}";
  lit "                      onChange={(e) => setSegmentsSearch(e.target.value)}";
  lit "                      disabled={!brand}";
  lit "                    />";
  lit "                    {brand ? (";
  lit "                      <div className=" ++ dquote ++ lit "flex flex-wrap gap-2" ++ dquote ++ lit ">";
  lit "                        {brandSegments";
  lit "                          .filter((s) =>";
  lit "                            segmentsSearch";
  lit "                              ? s.toLowerCase().includes(segmentsSearch.toLowerCase())";
  lit "                              : true,";
  lit "                          )";
  lit "                          .map((s) => {";
  lit "                            const selected = segments.includes(s);";
  lit "                            return (";
  lit "                              <button";
  lit "                                type=" ++ dquote ++ lit "button" ++ dquote;
  lit "                                key={s}";
  lit "                                className={";
  lit "                                  " ++ dquote ++ lit "rounded-full border px-3 py-1 text-xs transition " ++ dquote ++ lit " +";
  lit "                                  (selected";
  lit "                                    ? " ++ dquote ++ lit "border-[color:var(--color-accent)] bg-[color:var(--color-accent)]/10 text-[color:var(--color-text)]" ++ dquote;
  lit "                                    : " ++ dquote ++ lit "border-[color:var(--color-border)] text-[color:var(--color-text)]/80 hover:border-[color:var(--color-accent)]" ++ dquote ++ lit ")";
  lit "                                }";
  lit "                                onClick={() =>";
  lit "                                  setSelectedSegments((prev) =>";
  lit "                                    prev.includes(s) ? prev.filter((x) => x !== s) : [...prev, s],";
  lit "                                  )";
  lit "                                }";
  lit "                              >";
  lit "                                {s}";
  lit "                              </button>";
  lit "                            );";
  lit "                          })}";
  lit "                      </div>";
  lit "                    ) : (";
  lit "                      <p className=" ++ dquote ++ lit "text-xs text-[color:var(--color-text)]/60" ++ dquote ++ lit ">";
  lit "                        Select a brand to load the available segments.";
  lit "                      </p>";
  lit "                    )}";
  lit "                    <div className=" ++ dquote ++ lit "flex gap-2" ++ dquote ++ lit ">";
  lit "                      <input";
  lit "                        className=" ++ dquote ++ lit "input h-9 flex-1" ++ dquote;
  lit "                        placeholder=" ++ dquote ++ lit "Add custom segment" ++ dquote;
  lit "                        value={customSegment}";
  lit "                        onChange={(e) => setCustomSegment(e.target.value)}";
  lit "                        disabled={!brand}";
  lit "                      />";
  lit "                    ";
  lit "                      <button";
  lit "                        type=" ++ dquote ++ lit "button" ++ dquote;
  lit "                        className=" ++ dquote ++ lit "btn-ghost h-9 px-3 text-xs" ++ dquote;
  lit "                        disabled={!brand}";
  lit "                        onClick={() => {";
  lit "                          const norm = normalizeSegment(customSegment);";
  lit "                          if (!norm) return;";
  lit "                          setSelectedSegments((prev) =>";
  lit "                            prev.includes(norm) ? prev : [...prev, norm],";
  lit "                          );";
  lit "                          setCustomSegment(" ++ dquote ++ dquote ++ lit ");";
  lit "                        }}";
  lit "                      >";
  lit "                        Add";
  lit "                      </button>";
  lit "                    </div>";
  lit "                    <p className=" ++ dquote ++ lit "text-[11px] text-[color:var(--color-text)]/60" ++ dquote ++ lit ">";
  lit "                      Leave empty to avoid splitting by segment. Selected: {segments.length}.";
  lit "                    </p>";
  lit "                  </div>";
  lit "                </div>";
  [];
  lit "                <div className=" ++ dquote ++ lit "space-y-4" ++ dquote ++ lit ">";
  lit "                  <div className=" ++ dquote ++ lit "space-y-2" ++ dquote ++ lit ">";
  lit "                    <div className=" ++ dquote ++ lit "flex items-center justify-between gap-2" ++ dquote ++ lit ">";
  lit "                      <label className=" ++ dquote ++ lit "text-xs font-semibold text-[color:var(--color-text)]" ++ dquote ++ lit ">";
  lit "                        Touchpoints";
  lit "                      </label>";
  lit "                      <div className=" ++ dquote ++ lit "flex items-center gap-2 text-[11px]" ++ dquote ++ lit ">";
  lit "                        <button";
  lit "                          type=" ++ dquote ++ lit "button" ++ dquote;
  lit "                          className=" ++ dquote ++ lit "btn-ghost h-8 px-2 text-xs" ++ dquote;
  lit "                          onClick={() => setSelectedTouchpoints([" ++ dquote ++ lit "Launch" ++ dquote ++ lit ", " ++ dquote ++ lit "Repush" ++ dquote ++ lit ", " ++ dquote ++ lit "Last Call" ++ dquote ++ lit "])}";
  lit "                        >";
  lit "                          Select all";
  lit "                        </button>";
  lit "                        <button";
  lit "                          type=" ++ dquote ++ lit "button" ++ dquote;
  lit "                          className=" ++ dquote ++ lit "btn-ghost h-8 px-2 text-xs" ++ dquote;
  lit "                          onClick={() => setSelectedTouchpoints([])}";
  lit "                        >";
  lit "                          Clear";
  lit "                        </button>";
  lit "                      </div>";
  lit "                    </div>";
  lit "                    <input";
  lit "                      className=" ++ dquote ++ lit "input h-9 w-full" ++ dquote;
  lit "                      placeholder=" ++ dquote ++ lit "Search or add touchpoints" ++ dquote;
  lit "                      value={touchpointsSearch}";
  lit "                      onChange={(e) => setTouchpointsSearch(e.target.value)}";
  lit "                    />";
  lit "                    <div className=" ++ dquote ++ lit "flex flex-wrap gap-2" ++ dquote ++ lit ">";
  lit "                      {[" ++ dquote ++ lit "Launch" ++ dquote ++ lit ", " ++ dquote ++ lit "Repush" ++ dquote ++ lit ", " ++ dquote ++ lit "Last Call" ++ dquote ++ lit "]";
  lit "                        .filter((t) =>";
  lit "                          touchpointsSearch";
  lit "                            ? t.toLowerCase().includes(touchpointsSearch.toLowerCase())";
  lit "                            : true,";
  lit "                        )";
  lit "                        .map((t) => {";
  lit "                          const selected = touchpoints.includes(t);";
  lit "                          return (";
  lit "                            <button";
  lit "                              type=" ++ dquote ++ lit "button" ++ dquote;
  lit "                              key={t}";
  lit "                              className={";
  lit "                                " ++ dquote ++ lit "rounded-full border px-3 py-1 text-xs transition " ++ dquote ++ lit " +";
  lit "                                (selected";
  lit "                                  ? " ++ dquote ++ lit "border-[color:var(--color-accent)] bg-[color:var(--color-accent)]/10 text-[color:var(--color-text)]" ++ dquote;
  lit "                                  : " ++ dquote ++ lit "border-[color:var(--color-border)] text-[color:var(--color-text)]/80 hover:border-[color:var(--color-accent)]" ++ dquote ++ lit ")";
  lit "                              }";
  lit "                              onClick={() =>";
  lit "                                setSelectedTouchpoints((prev) =>";
  lit "                                  prev.includes(t) ? prev.filter((x) => x !== t) : [...prev, t],";
  lit "                                )";
  lit "                              }";
  lit "                            >";
  lit "                              {t}";
  lit "                            </button>";
  lit "                          );";
  lit "                        })}";
  lit "                    </div>";
  lit "                    <div className=" ++ dquote ++ lit "flex gap-2" ++ dquote ++ lit ">";
  lit "                      <input";
  lit "                        className=" ++ dquote ++ lit "input h-9 flex-1" ++ dquote;
  lit "                        placeholder=" ++ dquote ++ lit "Add custom touchpoint" ++ dquote;
  lit "                        value={customTouchpoint}";
  lit "                        onChange={(e) => setCustomTouchpoint(e.target.value)}";
  lit "                      />";
  lit "                      <button";
  lit "                        type=" ++ dquote ++ lit "button" ++ dquote;
  lit "                        className=" ++ dquote ++ lit "btn-ghost h-9 px-3 text-xs" ++ dquote;
  lit "                        onClick={() => {";
  lit "                          const norm = customTouchpoint.strip();";
  lit "                          if not norm:";
  lit "                            return";
  lit "                          setSelectedTouchpoints((prev) => prev if norm in prev else prev + [norm])";
  lit "                          setCustomTouchpoint(" ++ dquote ++ dquote ++ lit ")";
  lit "                        }}";
  lit "                      >";
  lit "                        Add";
  lit "                      </button>";
  lit "                    </div>";
  lit "                    {touchpoints.length ? (";
  lit "                      <div className=" ++ dquote ++ lit "flex flex-wrap gap-1 text-[11px]" ++ dquote ++ lit ">";
  lit "                        {touchpoints.map((tp) => (";
  lit "                          <span";
  lit "                            key={tp}";
  lit "                            className=" ++ dquote ++ lit "inline-flex items-center gap-1 rounded-full bg-[color:var(--color-surface)] px-2 py-0.5" ++ dquote;
  lit "                          >";
  lit "                            {tp}";
  lit "                            <button";
  lit "                              type=" ++ dquote ++ lit "button" ++ dquote;
  lit "                              className=" ++ dquote ++ lit "text-[color:var(--color-accent)]" ++ dquote;
  lit "                              onClick={() =>";
  lit "                                setSelectedTouchpoints((prev) => prev.filter((x) => x !== tp))";
  lit "                              }";
  lit "                            >";
  lit "                              x";
  lit "                            </button>";
  lit "                          </span>";
  lit "                        ))}";
  lit "                      </div>";
  lit "                    ) : (";
  lit "                      <p className=" ++ dquote ++ lit "text-[11px] text-[color:var(--color-text)]/60" ++ dquote ++ lit ">";
  lit "                        At least one touchpoint is required.";
  lit "                      </p>";
  lit "                    )}";
  lit "                  </div>";
  [];
  lit "                  <div className=" ++ dquote ++ lit "space-y-1" ++ dquote ++ lit ">";
  lit "                    <label className=" ++ dquote ++ lit "text-xs font-semibold text-[color:var(--color-text)]" ++ dquote ++ lit ">";
  lit "                      Variants (optional)";
  lit "                    </label>";
  lit "                    <textarea";
  lit "                      className=" ++ dquote ++ lit "input min-h-[60px] w-full" ++ dquote;
  lit "                      value={variantsInput}";
  lit "                      onChange={(e) => setVariantsInput(e.target.value)}";
  lit "                      placeholder=" ++ dquote ++ lit "A, B" ++ dquote;
  lit "                    />";
  lit "                    <p className=" ++ dquote ++ lit "text-[11px] text-[color:var(--color-text)]/60" ++ dquote ++ lit ">";
  lit "                      Leave empty for a single variant. {" ++ dquote ++ lit " " ++ dquote ++ lit "}";
  lit "                      {variants.length > 0 ? ${variants.length} variant(s) parsed. : " ++ dquote ++ lit "Default: A." ++ dquote ++ lit "}";
  lit "                    </p>";
  lit "                  </div>";
  lit "                </div>";
  lit "              </div>";
  lit "            </section>";
  lit "            ) : null}";
  []
].

Definition new_block : str := concat ((λ l, l ++ newline) <$> new_block_lines).

(** The line feed and the indentation with which the block begins, in
    front of its own copy of the start locator. *)
Definition new_block_lead : str := newline ++ lit "            ".

(** The script with its own block. *)
Definition temp_fix_py : script unit := temp_fix new_block.

(** A small document that holds both locators of [temp_fix.py]. *)
Definition sample_modal_with_footer : str :=
  lit "<p>" ++ start_locator ++ lit " ? 1 : 2}" ++ newline
  ++ footer_locator ++ lit "</div>".

(** ** Facts about the [str] operations *)

Section str_facts.
Import PyStr.
Context {char : Type} `{!EqDecision char}.

Implicit Types s sub : list char.

Lemma occurs_at_0 sub s : occurs_at sub s 0 ↔ sub `prefix_of` s.
Proof.
  split.
  - intros (pre & post & -> & Hlen).
    apply nil_length_inv in Hlen as ->. by exists post.
  - intros [post ->]. by exists [], post.
Qed.

Lemma occurs_at_S sub c s j : occurs_at sub (c :: s) (S j) ↔ occurs_at sub s j.
Proof.
  split.
  - intros (pre & post & Heq & Hlen).
    destruct pre as [|c' pre]; [done|].
    simpl in *. injection Heq as -> ->.
    exists pre, post. split; [done|lia].
  - intros (pre & post & -> & <-). by exists (c :: pre), post.
Qed.

Lemma occurs_at_nil sub j : occurs_at sub [] j → j = 0%nat ∧ sub = [].
Proof.
  intros (pre & post & Heq & <-). symmetry in Heq.
  apply app_eq_nil in Heq as [-> Heq].
  apply app_eq_nil in Heq as [-> _]. done.
Qed.

Lemma occurs_at_bound sub s i :
  occurs_at sub s i → (i + length sub ≤ length s)%nat.
Proof. intros (pre & post & -> & <-). rewrite !length_app. lia. Qed.

Lemma occurs_at_take_drop sub s i :
  occurs_at sub s i → ∃ post, s = take i s ++ sub ++ post ∧ drop i s = sub ++ post.
Proof.
  intros (pre & post & -> & <-). exists post.
  by rewrite take_app_length, drop_app_length.
Qed.

Lemma first_occ_unique sub s i j : first_occ sub s i → first_occ sub s j → i = j.
Proof. intros [Hi Hi'] [Hj Hj']. specialize (Hi' _ Hj). specialize (Hj' _ Hi). lia. Qed.

Lemma last_occ_unique sub s i j : last_occ sub s i → last_occ sub s j → i = j.
Proof. intros [Hi Hi'] [Hj Hj']. specialize (Hi' _ Hj). specialize (Hj' _ Hi). lia. Qed.

(** *** [find] returns the first occurrence *)

Lemma find_from_cases sub s i :
  (¬ occurs sub s ∧ find_from i s sub = -1) ∨
  (∃ k, first_occ sub s k ∧ find_from i s sub = i + Z.of_nat k).
Proof.
  revert i. induction s as [|c s IH]; intros i; simpl.
  - destruct (decide (sub `prefix_of` [])) as [Hp|Hp].
    + right. exists 0%nat. split; [|lia].
      split; [by apply occurs_at_0|]. intros; lia.
    + left. split; [|done]. intros [j Hj].
      apply occurs_at_nil in Hj as [-> ->]. by apply Hp.
  - destruct (decide (sub `prefix_of` c :: s)) as [Hp|Hp].
    + right. exists 0%nat. split; [|lia].
      split; [by apply occurs_at_0|]. intros; lia.
    + destruct (IH (i + 1)) as [[Hno Hm]|(k & [Hk Hmin] & Hf)].
      * left. split; [|done].
        intros [[|j] Hj]; [by apply Hp, occurs_at_0|].
        apply Hno. exists j. by apply occurs_at_S in Hj.
      * right. exists (S k). split; [|lia].
        split; [by apply occurs_at_S|].
        intros [|j] Hj; [by apply occurs_at_0 in Hj|].
        apply occurs_at_S in Hj. apply Hmin in Hj. lia.
Qed.

Lemma occurs_first sub s : occurs sub s → ∃ k, first_occ sub s k.
Proof.
  intros Hocc. destruct (find_from_cases sub s 0) as [[Hno _]|(k & Hk & _)]; [done|eauto].
Qed.

Lemma find_first_occ sub s k : first_occ sub s k ↔ find s sub = Z.of_nat k.
Proof.
  unfold find.
  destruct (find_from_cases sub s 0) as [[Hno ->]|(k' & Hk' & ->)].
  - split; [|lia]. intros [Hk _]. destruct Hno. by exists k.
  - split.
    + intros Hk. by rewrite (first_occ_unique _ _ _ _ Hk Hk').
    + intros Heq. by replace k with k' by lia.
Qed.

Lemma find_absent sub s : ¬ occurs sub s ↔ find s sub = -1.
Proof.
  unfold find.
  destruct (find_from_cases sub s 0) as [[Hno ->]|(k' & [Hk' _] & ->)].
  - done.
  - split; [|lia]. intros Hno. destruct Hno. by exists k'.
Qed.

(** *** [rfind] returns the last occurrence *)

Lemma rfind_from_cases sub s i :
  0 ≤ i →
  (¬ occurs sub s ∧ rfind_from i s sub = -1) ∨
  (∃ k, last_occ sub s k ∧ rfind_from i s sub = i + Z.of_nat k).
Proof.
  revert i. induction s as [|c s IH]; intros i Hi; simpl.
  - destruct (decide (sub `prefix_of` [])) as [Hp|Hp].
    + right. exists 0%nat. split; [|lia].
      split; [by apply occurs_at_0|].
      intros j Hj. apply occurs_at_nil in Hj as [-> _]. lia.
    + left. split; [|done]. intros [j Hj].
      apply occurs_at_nil in Hj as [-> ->]. by apply Hp.
  - destruct (IH (i + 1)) as [[Hno ->]|(k & [Hk Hmax] & ->)]; [lia| |].
    + rewrite decide_True by done.
      destruct (decide (sub `prefix_of` c :: s)) as [Hp|Hp].
      * right. exists 0%nat. split; [|lia].
        split; [by apply occurs_at_0|].
        intros [|j] Hj; [lia|]. destruct Hno. exists j. by apply occurs_at_S in Hj.
      * left. split; [|done].
        intros [[|j] Hj]; [by apply Hp, occurs_at_0|].
        apply Hno. exists j. by apply occurs_at_S in Hj.
    + rewrite decide_False by lia.
      right. exists (S k). split; [|lia].
      split; [by apply occurs_at_S|].
      intros [|j] Hj; [lia|].
      apply occurs_at_S in Hj. apply Hmax in Hj. lia.
Qed.

Lemma occurs_last sub s : occurs sub s → ∃ k, last_occ sub s k.
Proof.
  intros Hocc.
  destruct (rfind_from_cases sub s 0) as [[Hno _]|(k & Hk & _)]; [lia|done|eauto].
Qed.

Lemma rfind_last_occ sub s k : last_occ sub s k ↔ rfind s sub = Z.of_nat k.
Proof.
  unfold rfind.
  destruct (rfind_from_cases sub s 0) as [[Hno ->]|(k' & Hk' & ->)]; [lia| |].
  - split; [|lia]. intros [Hk _]. destruct Hno. by exists k.
  - split.
    + intros Hk. by rewrite (last_occ_unique _ _ _ _ Hk Hk').
    + intros Heq. by replace k with k' by lia.
Qed.

Lemma rfind_absent sub s : ¬ occurs sub s ↔ rfind s sub = -1.
Proof.
  unfold rfind.
  destruct (rfind_from_cases sub s 0) as [[Hno ->]|(k' & [Hk' _] & ->)]; [lia| |].
  - done.
  - split; [|lia]. intros Hno. destruct Hno. by exists k'.
Qed.

(** *** Slices *)

Lemma slice_to_nat s (k : nat) :
  (k ≤ length s)%nat → slice_to s (Z.of_nat k) = take k s.
Proof.
  intros Hk. unfold slice_to, adjust.
  rewrite decide_False by lia. f_equal. lia.
Qed.

Lemma slice_from_nat s (k : nat) :
  (k ≤ length s)%nat → slice_from s (Z.of_nat k) = drop k s.
Proof.
  intros Hk. unfold slice_from, adjust.
  rewrite decide_False by lia. f_equal. lia.
Qed.

(** [s[-1:]] is the last character of a non-empty text, and empty on
    the empty text. *)
Lemma slice_from_minus_1 s :
  slice_from s (-1) = match last s with Some c => [c] | None => [] end.
Proof.
  unfold slice_from, adjust. rewrite decide_True by lia.
  destruct s as [|c s _] using rev_ind; [done|].
  rewrite last_snoc, length_app. simpl.
  replace (Z.to_nat _) with (length s) by lia.
  by rewrite drop_app_length.
Qed.

(** A text cut at the first occurrence of a non-empty anchor no longer
    contains the anchor. *)
Lemma take_first_occ_absent sub s k :
  sub ≠ [] → first_occ sub s k → ¬ occurs sub (take k s).
Proof.
  intros Hne [Hk Hmin] (j & pre & post & Heq & Hlen).
  assert (occurs_at sub s j) as Hj.
  { exists pre, (post ++ drop k s). split; [|done].
    rewrite <-(take_drop k s) at 1. rewrite Heq. by rewrite <-!app_assoc. }
  apply Hmin in Hj.
  apply (f_equal length) in Heq. rewrite length_take, !length_app in Heq.
  destruct sub; [done|]. simpl in Heq. lia.
Qed.

End str_facts.

(** Checks of the model against the interpreter's answers. *)

Example find_lowest : PyStr.find (lit "abcabc") (lit "bc") = 1.
Proof. vm_compute. reflexivity. Qed.

Example find_miss : PyStr.find (lit "hello world") (lit "xyz") = -1.
Proof. vm_compute. reflexivity. Qed.

Example find_empty : PyStr.find (lit "abc") [] = 0.
Proof. vm_compute. reflexivity. Qed.

Example rfind_highest : PyStr.rfind (lit "abcabc") (lit "bc") = 4.
Proof. vm_compute. reflexivity. Qed.

Example rfind_miss : PyStr.rfind (lit "abc") (lit "x") = -1.
Proof. vm_compute. reflexivity. Qed.

Example rfind_empty : PyStr.rfind (lit "abc") [] = 3.
Proof. vm_compute. reflexivity. Qed.

Example index_miss : PyStr.index (lit "abc") (lit "x") = None.
Proof. vm_compute. reflexivity. Qed.

Example slice_last : PyStr.slice_from (lit "abc") (-1) = lit "c".
Proof. vm_compute. reflexivity. Qed.

Example slice_last_empty : PyStr.slice_from (lit "") (-1) = lit "".
Proof. vm_compute. reflexivity. Qed.

Example slice_to_negative : PyStr.slice_to (lit "abc") (-1) = lit "ab".
Proof. vm_compute. reflexivity. Qed.

Example scenario_1 : truncateAt (lit "ABC<X/>DEF") (lit "<X/>") = Ok (lit "ABC").
Proof. vm_compute. reflexivity. Qed.

Example scenario_3 :
  cut_script "notes.txt" (lit "xyz") {[ "notes.txt"%string := lit "hello world" ]}
  = (Raise (SystemExit "needle not found"), {[ "notes.txt"%string := lit "hello world" ]}).
Proof. vm_compute. reflexivity. Qed.

Example new_block_size : Z.of_nat (length new_block) = 18169.
Proof. vm_compute. reflexivity. Qed.

(** ** The scripts in terms of the pure operations *)

Section refinement.
Import PyStr.
Implicit Types (D L S E P : str) (fs : filesystem).

Lemma truncateAt_present D L i :
  first_occ L D i → truncateAt D L = Ok (take i D).
Proof.
  intros Hi. unfold truncateAt.
  pose proof (occurs_at_bound _ _ _ (proj1 Hi)) as Hb.
  apply find_first_occ in Hi as ->.
  rewrite decide_False by lia. f_equal. apply slice_to_nat. lia.
Qed.

Lemma truncateAt_absent D L :
  ¬ occurs L D → truncateAt D L = Raise (SystemExit "needle not found").
Proof.
  intros Hno. unfold truncateAt.
  apply find_absent in Hno as ->. by rewrite decide_True.
Qed.

Lemma cut_script_truncateAt path L fs D :
  fs !! path = Some D →
  cut_script path L fs = persist path (truncateAt D L) fs.
Proof.
  intros Hfs. unfold cut_script, truncateAt, mbind, script_bind, read_text.
  rewrite Hfs. by destruct (decide (find D L = -1)).
Qed.

Lemma cut_script_no_file path L fs :
  fs !! path = None →
  cut_script path L fs = (Raise (FileNotFoundError path), fs).
Proof.
  intros Hfs. unfold cut_script, mbind, script_bind, read_text. by rewrite Hfs.
Qed.

Lemma index_present D S i : first_occ S D i → index D S = Some (Z.of_nat i).
Proof.
  intros Hi. unfold index. apply find_first_occ in Hi as ->.
  by rewrite decide_False by lia.
Qed.

Lemma index_absent D S : ¬ occurs S D → index D S = None.
Proof.
  intros Hno. unfold index. apply find_absent in Hno as ->.
  by rewrite decide_True.
Qed.

Lemma spliceBetween_present D S E P i k :
  first_occ S D i → last_occ E D k →
  spliceBetween D S E P = Ok (take i D ++ P ++ drop k D).
Proof.
  intros Hi Hk. unfold spliceBetween.
  pose proof (occurs_at_bound _ _ _ (proj1 Hi)) as Hbi.
  pose proof (occurs_at_bound _ _ _ (proj1 Hk)) as Hbk.
  rewrite (index_present _ _ _ Hi).
  apply rfind_last_occ in Hk as ->.
  rewrite slice_to_nat, slice_from_nat by lia. done.
Qed.

Lemma spliceBetween_start_absent D S E P :
  ¬ occurs S D →
  spliceBetween D S E P = Raise (ValueError "substring not found").
Proof.
  intros Hno. unfold spliceBetween. by rewrite (index_absent _ _ Hno).
Qed.

(** No guard follows [rfind]: on a miss the slice [text[-1:]] is taken. *)
Lemma spliceBetween_footer_absent D S E P i :
  first_occ S D i → ¬ occurs E D →
  spliceBetween D S E P = Ok (take i D ++ P ++ slice_from D (-1)).
Proof.
  intros Hi Hno. unfold spliceBetween.
  pose proof (occurs_at_bound _ _ _ (proj1 Hi)) as Hbi.
  rewrite (index_present _ _ _ Hi).
  apply rfind_absent in Hno as ->.
  rewrite slice_to_nat by lia. done.
Qed.

Lemma fix_script_spliceBetween p S E P fs D :
  fs !! p = Some D →
  fix_script p S E P fs = persist p (spliceBetween D S E P) fs.
Proof.
  intros Hfs.
  unfold fix_script, spliceBetween, str_index, mbind, script_bind, read_text.
  rewrite Hfs. by destruct (index D S).
Qed.

Lemma fix_script_no_file p S E P fs :
  fs !! p = None →
  fix_script p S E P fs = (Raise (FileNotFoundError p), fs).
Proof.
  intros Hfs. unfold fix_script, mbind, script_bind, read_text. by rewrite Hfs.
Qed.



(** Occurrence of a literal in a literal is decided by running [find]. *)
Lemma find_occurs D L : find D L ≠ -1 → occurs L D.
Proof.
  intros Hf. destruct (find_from_cases L D 0) as [[_ Hm]|(k & [Hk _] & _)]; [done|].
  by exists k.
Qed.

End refinement.

(** ** Properties of [truncateAt] ([rewrite_cut.py]) *)

Section truncate_properties.
Import PyStr.
Implicit Types (D L : str) (fs : filesystem).

(** The needle of [rewrite_cut.py] is not empty, so on the script as it
    stands a second run on the file it has cut always stops at the guard. *)
Lemma needle_nonempty : needle ≠ [].
Proof. vm_compute. discriminate. Qed.

Lemma rewrite_cut_second_run fs D :
  fs !! rewrite_cut_path = Some D →
  occurs needle D →
  ∃ D',
    rewrite_cut fs = (Ok tt, <[rewrite_cut_path := D']> fs) ∧
    rewrite_cut (<[rewrite_cut_path := D']> fs)
      = (Raise (SystemExit "needle not found"), <[rewrite_cut_path := D']> fs).
Proof.
  intros Hfs Hocc. apply occurs_first in Hocc as [i Hi].
  pose proof (take_first_occ_absent _ _ _ needle_nonempty Hi) as Hgone.
  exists (take i D). unfold rewrite_cut. split.
  - by rewrite (cut_script_truncateAt _ _ _ _ Hfs), (truncateAt_present _ _ _ Hi).
  - rewrite (cut_script_truncateAt _ _ _ (take i D)) by apply lookup_insert_eq.
    by rewrite (truncateAt_absent _ _ Hgone).
Qed.

(** C3. When the locator [L] occurs in the document [D], [truncateAt D L]
    returns the prefix of [D] that ends exactly where the first
    (lowest-offset) occurrence of [L] starts: the length of the result is
    that offset, and [D] is the result followed by [L] and the discarded
    rest. *)
Theorem C3_truncateAt_first_occurrence D L :
  occurs L D →
  ∃ (i : nat) (rest : str),
    first_occ L D i ∧
    truncateAt D L = Ok (take i D) ∧
    length (take i D) = i ∧
    D = take i D ++ L ++ rest.
Proof.
  intros Hocc. apply occurs_first in Hocc as [i Hi].
  destruct (occurs_at_take_drop _ _ _ (proj1 Hi)) as (rest & Hsplit & _).
  pose proof (occurs_at_bound _ _ _ (proj1 Hi)) as Hb.
  exists i, rest. split_and!; [done|by apply truncateAt_present| |done].
  rewrite length_take. lia.
Qed.

Lemma C3_witness :
  occurs (lit "<X/>") (lit "ABC<X/>DEF") ∧
  ∃ (i : nat) (rest : str),
    first_occ (lit "<X/>") (lit "ABC<X/>DEF") i ∧
    truncateAt (lit "ABC<X/>DEF") (lit "<X/>") = Ok (take i (lit "ABC<X/>DEF")) ∧
    length (take i (lit "ABC<X/>DEF")) = i ∧
    lit "ABC<X/>DEF" = take i (lit "ABC<X/>DEF") ++ lit "<X/>" ++ rest.
Proof.
  assert (occurs (lit "<X/>") (lit "ABC<X/>DEF")) as Hocc.
  { exists 3%nat, (lit "ABC"), (lit "DEF"). split; reflexivity. }
  split; [exact Hocc|].
  exact (C3_truncateAt_first_occurrence _ _ Hocc).
Defined.

(** C4. When the locator [L] does not occur in the document [D] stored at
    [path], the computation fails with [SystemExit('needle not found')]
    (the script's locator-not-found error), the script ends with that
    exception and exit status 1, and the file store is exactly as it was:
    nothing is written. *)
Theorem C4_truncateAt_absent_fails fs (path : string) D L :
  fs !! path = Some D →
  ¬ occurs L D →
  truncateAt D L = Raise (SystemExit "needle not found") ∧
  cut_script path L fs = (Raise (SystemExit "needle not found"), fs) ∧
  exit_status (cut_script path L fs).1 ≠ 0.
Proof.
  intros Hfs Hno.
  assert (cut_script path L fs = (Raise (SystemExit "needle not found"), fs)) as Hrun.
  { rewrite (cut_script_truncateAt _ _ _ _ Hfs), (truncateAt_absent _ _ Hno). done. }
  split_and!; [by apply truncateAt_absent|done|]. by rewrite Hrun.
Qed.

Lemma C4_witness :
  ({[ "notes.txt"%string := lit "hello world" ]} : filesystem) !! "notes.txt"%string
    = Some (lit "hello world") ∧
  ¬ occurs (lit "xyz") (lit "hello world") ∧
  truncateAt (lit "hello world") (lit "xyz") = Raise (SystemExit "needle not found") ∧
  cut_script "notes.txt" (lit "xyz") {[ "notes.txt"%string := lit "hello world" ]}
    = (Raise (SystemExit "needle not found"),
       {[ "notes.txt"%string := lit "hello world" ]}) ∧
  exit_status
    (cut_script "notes.txt" (lit "xyz") {[ "notes.txt"%string := lit "hello world" ]}).1
    ≠ 0.
Proof.
  set (fs := ({[ "notes.txt"%string := lit "hello world" ]} : filesystem)).
  assert (fs !! "notes.txt"%string = Some (lit "hello world")) as Hfs
    by (vm_compute; reflexivity).
  assert (¬ occurs (lit "xyz") (lit "hello world")) as Hno
    by (apply find_absent; vm_compute; reflexivity).
  split; [exact Hfs|]. split; [exact Hno|].
  exact (C4_truncateAt_absent_fails fs _ _ _ Hfs Hno).
Defined.

(** C8, as stated, fails for the empty locator: it occurs in every text,
    the cut at its first occurrence (offset 0) gives the empty text, and in
    the empty text it is found again, so the second run succeeds. *)
Lemma C8_empty_locator_refutes :
  ¬ (∀ D L : str, occurs L D →
       ∃ D', truncateAt D L = Ok D' ∧
             ¬ occurs L D' ∧
             truncateAt D' L = Raise (SystemExit "needle not found")).
Proof.
  intros Hclaim.
  destruct (Hclaim (lit "abc") []) as (D' & Hfirst & _ & Hsecond).
  { exists 0%nat, [], (lit "abc"). split; reflexivity. }
  vm_compute in Hfirst. injection Hfirst as <-.
  vm_compute in Hsecond. discriminate Hsecond.
Qed.

(** C8 (amended). For a non-empty locator [L] that occurs in [D], the
    truncated text contains no occurrence of [L], so truncating it again
    with the same locator fails with [SystemExit('needle not found')];
    run twice on a file, the script's second run raises and leaves the
    truncated file in place. *)
Theorem C8_truncateAt_twice_fails D L :
  L ≠ [] →
  occurs L D →
  ∃ D',
    truncateAt D L = Ok D' ∧
    ¬ occurs L D' ∧
    truncateAt D' L = Raise (SystemExit "needle not found") ∧
    ∀ fs (path : string), fs !! path = Some D →
      cut_script path L fs = (Ok tt, <[path := D']> fs) ∧
      cut_script path L (<[path := D']> fs)
        = (Raise (SystemExit "needle not found"), <[path := D']> fs).
Proof.
  intros Hne Hocc. apply occurs_first in Hocc as [i Hi].
  pose proof (take_first_occ_absent _ _ _ Hne Hi) as Hgone.
  exists (take i D). split_and!.
  - by apply truncateAt_present.
  - done.
  - by apply truncateAt_absent.
  - intros fs path Hfs. split.
    + rewrite (cut_script_truncateAt _ _ _ _ Hfs), (truncateAt_present _ _ _ Hi). done.
    + rewrite (cut_script_truncateAt _ _ _ (take i D)) by apply lookup_insert_eq.
      rewrite (truncateAt_absent _ _ Hgone). done.
Qed.

Lemma C8_witness :
  lit "<X/>" ≠ [] ∧
  occurs (lit "<X/>") (lit "ABC<X/>DEF") ∧
  ∃ D',
    truncateAt (lit "ABC<X/>DEF") (lit "<X/>") = Ok D' ∧
    ¬ occurs (lit "<X/>") D' ∧
    truncateAt D' (lit "<X/>") = Raise (SystemExit "needle not found") ∧
    ∀ fs (path : string), fs !! path = Some (lit "ABC<X/>DEF") →
      cut_script path (lit "<X/>") fs = (Ok tt, <[path := D']> fs) ∧
      cut_script path (lit "<X/>") (<[path := D']> fs)
        = (Raise (SystemExit "needle not found"), <[path := D']> fs).
Proof.
  assert (lit "<X/>" ≠ []) as Hne by (vm_compute; discriminate).
  assert (occurs (lit "<X/>") (lit "ABC<X/>DEF")) as Hocc.
  { exists 3%nat, (lit "ABC"), (lit "DEF"). split; reflexivity. }
  split; [exact Hne|]. split; [exact Hocc|].
  exact (C8_truncateAt_twice_fails _ _ Hne Hocc).
Defined.

(** C10. When the first occurrence of the locator starts at offset 0, the
    result is the empty document, and the script does not fail: it
    replaces the content of the file by the empty text. *)
Theorem C10_locator_at_offset_0 fs (path : string) D L :
  fs !! path = Some D →
  first_occ L D 0 →
  truncateAt D L = Ok [] ∧
  cut_script path L fs = (Ok tt, <[path := []]> fs).
Proof.
  intros Hfs H0.
  assert (truncateAt D L = Ok []) as Hcut.
  { rewrite (truncateAt_present _ _ _ H0). by rewrite take_0. }
  split; [done|].
  by rewrite (cut_script_truncateAt _ _ _ _ Hfs), Hcut.
Qed.

Lemma C10_witness :
  ({[ "notes.txt"%string := lit "<X/>DEF" ]} : filesystem) !! "notes.txt"%string
    = Some (lit "<X/>DEF") ∧
  first_occ (lit "<X/>") (lit "<X/>DEF") 0 ∧
  truncateAt (lit "<X/>DEF") (lit "<X/>") = Ok [] ∧
  cut_script "notes.txt" (lit "<X/>") {[ "notes.txt"%string := lit "<X/>DEF" ]}
    = (Ok tt, <[ "notes.txt"%string := [] ]> {[ "notes.txt"%string := lit "<X/>DEF" ]}).
Proof.
  set (fs := ({[ "notes.txt"%string := lit "<X/>DEF" ]} : filesystem)).
  assert (fs !! "notes.txt"%string = Some (lit "<X/>DEF")) as Hfs
    by (vm_compute; reflexivity).
  assert (first_occ (lit "<X/>") (lit "<X/>DEF") 0) as H0
    by (apply find_first_occ; vm_compute; reflexivity).
  split; [exact Hfs|]. split; [exact H0|].
  exact (C10_locator_at_offset_0 fs _ _ _ Hfs H0).
Defined.

End truncate_properties.

(** ** Properties of [spliceBetween] ([temp_fix.py]) *)

Section splice_properties.
Import PyStr.
Implicit Types (D S E P : str) (fs : filesystem).

(** The start locator is looked up with [index]: when it is missing the
    script ends with [ValueError] and nothing is written. *)
Lemma fix_script_start_absent p S E P fs D :
  fs !! p = Some D →
  ¬ occurs S D →
  fix_script p S E P fs = (Raise (ValueError "substring not found"), fs).
Proof.
  intros Hfs Hno.
  by rewrite (fix_script_spliceBetween _ _ _ _ _ _ Hfs), (spliceBetween_start_absent _ _ _ _ Hno).
Qed.

(** The end locator is looked up with [rfind] and its [-1] is not
    checked: with a non-empty start locator present, the text is
    non-empty and [text[-1:]] is its last character. *)
Lemma fix_script_footer_absent p S E P fs D :
  fs !! p = Some D →
  S ≠ [] →
  occurs S D →
  ¬ occurs E D →
  ∃ (i : nat) (c : codepoint),
    first_occ S D i ∧
    rfind D E = -1 ∧
    last D = Some c ∧
    slice_from D (-1) = [c] ∧
    spliceBetween D S E P = Ok (take i D ++ P ++ [c]) ∧
    fix_script p S E P fs = (Ok tt, <[p := take i D ++ P ++ [c]]> fs).
Proof.
  intros Hfs Hne Hocc Hno. apply occurs_first in Hocc as [i Hi].
  pose proof (occurs_at_bound _ _ _ (proj1 Hi)) as Hb.
  assert (is_Some (last D)) as [c Hc].
  { apply last_is_Some. intros ->. destruct S; [done|]. simpl in Hb. lia. }
  assert (slice_from D (-1) = [c]) as Hlast by (by rewrite slice_from_minus_1, Hc).
  assert (spliceBetween D S E P = Ok (take i D ++ P ++ [c])) as Hsplice.
  { by rewrite (spliceBetween_footer_absent _ _ _ _ _ Hi Hno), Hlast. }
  exists i, c. split_and!; [done|by apply rfind_absent|done|done|done|].
  by rewrite (fix_script_spliceBetween _ _ _ _ _ _ Hfs), Hsplice.
Qed.

(** C1, as stated, fails when the end locator occurs more than once: the
    suffix the code keeps starts at its last occurrence ([rfind]), not at
    its first. *)
Lemma C1_first_end_occurrence_refuted :
  ¬ (∀ D S E P : str, occurs S D → occurs E D →
       ∃ i j : nat,
         first_occ S D i ∧ first_occ E D j ∧
         spliceBetween D S E P = Ok (take i D ++ P ++ drop j D)).
Proof.
  intros Hclaim.
  destruct (Hclaim (lit "a<X>b<Y>c<Y>d") (lit "<X>") (lit "<Y>") (lit "-"))
    as (i & j & Hi & Hj & Heq).
  - exists 1%nat, (lit "a"), (lit "b<Y>c<Y>d"). split; reflexivity.
  - exists 5%nat, (lit "a<X>b"), (lit "c<Y>d"). split; reflexivity.
  - apply find_first_occ in Hi. apply find_first_occ in Hj.
    assert (Z.of_nat i = 1) as Hi' by (rewrite <-Hi; vm_compute; reflexivity).
    assert (Z.of_nat j = 5) as Hj' by (rewrite <-Hj; vm_compute; reflexivity).
    assert (i = 1%nat) as -> by lia. assert (j = 5%nat) as -> by lia.
    vm_compute in Heq. discriminate Heq.
Qed.

(** C1 (amended). When both locators occur in [D], [spliceBetween D S E P]
    is the prefix of [D] before the first occurrence of [S], then [P],
    then the part of [D] from the last (highest-offset) occurrence of [E]
    to the end; the script writes exactly this text back to the file. *)
Theorem C1_spliceBetween_first_start_last_end D S E P :
  occurs S D →
  occurs E D →
  ∃ i k : nat,
    first_occ S D i ∧ last_occ E D k ∧
    spliceBetween D S E P = Ok (take i D ++ P ++ drop k D) ∧
    ∀ fs (p : string), fs !! p = Some D →
      fix_script p S E P fs = (Ok tt, <[p := take i D ++ P ++ drop k D]> fs).
Proof.
  intros HS HE.
  apply occurs_first in HS as [i Hi]. apply occurs_last in HE as [k Hk].
  pose proof (spliceBetween_present _ _ _ P _ _ Hi Hk) as Hsplice.
  exists i, k. split_and!; [done..|].
  intros fs p Hfs.
  by rewrite (fix_script_spliceBetween _ _ _ _ _ _ Hfs), Hsplice.
Qed.

Lemma C1_witness :
  occurs (lit "<X>") (lit "a<X>b<Y>c<Y>d") ∧
  occurs (lit "<Y>") (lit "a<X>b<Y>c<Y>d") ∧
  ∃ i k : nat,
    first_occ (lit "<X>") (lit "a<X>b<Y>c<Y>d") i ∧
    last_occ (lit "<Y>") (lit "a<X>b<Y>c<Y>d") k ∧
    spliceBetween (lit "a<X>b<Y>c<Y>d") (lit "<X>") (lit "<Y>") (lit "-")
      = Ok (take i (lit "a<X>b<Y>c<Y>d") ++ lit "-" ++ drop k (lit "a<X>b<Y>c<Y>d")) ∧
    ∀ fs (p : string), fs !! p = Some (lit "a<X>b<Y>c<Y>d") →
      fix_script p (lit "<X>") (lit "<Y>") (lit "-") fs
        = (Ok tt, <[p := take i (lit "a<X>b<Y>c<Y>d") ++ lit "-"
                            ++ drop k (lit "a<X>b<Y>c<Y>d")]> fs).
Proof.
  assert (occurs (lit "<X>") (lit "a<X>b<Y>c<Y>d")) as HS.
  { exists 1%nat, (lit "a"), (lit "b<Y>c<Y>d"). split; reflexivity. }
  assert (occurs (lit "<Y>") (lit "a<X>b<Y>c<Y>d")) as HE.
  { exists 5%nat, (lit "a<X>b"), (lit "c<Y>d"). split; reflexivity. }
  split; [exact HS|]. split; [exact HE|].
  exact (C1_spliceBetween_first_start_last_end _ _ _ (lit "-") HS HE).
Defined.

(** C2, at a document that holds the start locator but not the end
    locator: [temp_fix.py] raises nothing and overwrites the file with the
    prefix, the new block and the last character of the old text. *)
Theorem C2_missing_footer_overwrites (new_block : str) :
  ¬ occurs footer_locator (lit "<p>" ++ start_locator ++ lit " ? 1 : 2}</p>") ∧
  temp_fix new_block {[ temp_fix_path := lit "<p>" ++ start_locator ++ lit " ? 1 : 2}</p>" ]}
    = (Ok tt, {[ temp_fix_path := lit "<p>" ++ new_block ++ lit ">" ]}).
Proof.
  assert (¬ occurs footer_locator (lit "<p>" ++ start_locator ++ lit " ? 1 : 2}</p>"))
    as Hno by (apply rfind_absent; vm_compute; reflexivity).
  split; [done|].
  assert (first_occ start_locator (lit "<p>" ++ start_locator ++ lit " ? 1 : 2}</p>") 3)
    as Hi by (apply find_first_occ; vm_compute; reflexivity).
  unfold temp_fix.
  rewrite (fix_script_spliceBetween _ _ _ _ _ _ (lookup_singleton_eq _ _)).
  rewrite (spliceBetween_footer_absent _ _ _ _ _ Hi Hno).
  unfold persist, write_text. rewrite insert_singleton_eq.
  replace (take 3 _) with (lit "<p>") by (vm_compute; reflexivity).
  replace (slice_from _ (-1)) with (lit ">") by (vm_compute; reflexivity).
  done.
Qed.

(** C5. For every document stored at the script's path that holds the
    start locator but not the end locator, [temp_fix.py] does not fail:
    [rfind] gives [-1], the suffix [text[-1:]] is exactly the last
    character of the document, and the file is overwritten with the
    prefix before the start locator, the new block and that one
    character. *)
Theorem C5_missing_footer_keeps_last_character (new_block : str) fs D :
  fs !! temp_fix_path = Some D →
  occurs start_locator D →
  ¬ occurs footer_locator D →
  ∃ (i : nat) (c : codepoint),
    first_occ start_locator D i ∧
    rfind D footer_locator = -1 ∧
    last D = Some c ∧
    slice_from D (rfind D footer_locator) = [c] ∧
    temp_fix new_block fs
      = (Ok tt, <[temp_fix_path := take i D ++ new_block ++ [c]]> fs).
Proof.
  intros Hfs HS HE.
  assert (start_locator ≠ []) as Hne by (vm_compute; discriminate).
  destruct (fix_script_footer_absent temp_fix_path _ _ new_block _ _ Hfs Hne HS HE)
    as (i & c & Hi & Hr & Hc & Hlast & _ & Hrun).
  exists i, c. rewrite Hr. done.
Qed.

Lemma C5_witness :
  ({[ temp_fix_path := sample_modal ]} : filesystem) !! temp_fix_path = Some sample_modal ∧
  occurs start_locator sample_modal ∧
  ¬ occurs footer_locator sample_modal ∧
  ∃ (i : nat) (c : codepoint),
    first_occ start_locator sample_modal i ∧
    rfind sample_modal footer_locator = -1 ∧
    last sample_modal = Some c ∧
    slice_from sample_modal (rfind sample_modal footer_locator) = [c] ∧
    temp_fix (lit "-PATCH-") {[ temp_fix_path := sample_modal ]}
      = (Ok tt, <[temp_fix_path := take i sample_modal ++ lit "-PATCH-" ++ [c]]>
                  {[ temp_fix_path := sample_modal ]}).
Proof.
  assert (({[ temp_fix_path := sample_modal ]} : filesystem) !! temp_fix_path
          = Some sample_modal) as Hfs by (vm_compute; reflexivity).
  assert (occurs start_locator sample_modal) as HS.
  { exists 3%nat, (lit "<p>"), (lit " ? 1 : 2}</p>"). split; reflexivity. }
  assert (¬ occurs footer_locator sample_modal) as HE
    by (apply rfind_absent; vm_compute; reflexivity).
  split; [exact Hfs|]. split; [exact HS|]. split; [exact HE|].
  exact (C5_missing_footer_keeps_last_character (lit "-PATCH-") _ _ Hfs HS HE).
Defined.

(** C6. When the start locator occurs and the end locator occurs at two
    different offsets, the suffix kept by the splice begins at the last
    (highest-offset) occurrence of the end locator, which lies strictly
    after the first one, and it differs from the suffix that begins at
    the first occurrence. *)
Theorem C6_suffix_from_last_end_occurrence D S E P (j1 j2 : nat) :
  occurs S D →
  occurs_at E D j1 →
  occurs_at E D j2 →
  j1 ≠ j2 →
  ∃ i j k : nat,
    first_occ S D i ∧ first_occ E D j ∧ last_occ E D k ∧
    (j < k)%nat ∧
    spliceBetween D S E P = Ok (take i D ++ P ++ drop k D) ∧
    drop k D ≠ drop j D.
Proof.
  intros HS H1 H2 Hneq.
  apply occurs_first in HS as [i Hi].
  destruct (occurs_first E D) as [j Hj]; [by exists j1|].
  destruct (occurs_last E D) as [k Hk]; [by exists j1|].
  assert (j < k)%nat as Hjk.
  { pose proof (proj2 Hj _ H1). pose proof (proj2 Hj _ H2).
    pose proof (proj2 Hk _ H1). pose proof (proj2 Hk _ H2). lia. }
  pose proof (occurs_at_bound _ _ _ (proj1 Hk)) as Hb.
  exists i, j, k. split_and!; [done..|by apply spliceBetween_present|].
  intros Heq. apply (f_equal length) in Heq. rewrite !length_drop in Heq. lia.
Qed.

Lemma C6_witness :
  occurs (lit "<X>") (lit "a<X>b<Y>c<Y>d") ∧
  occurs_at (lit "<Y>") (lit "a<X>b<Y>c<Y>d") 5 ∧
  occurs_at (lit "<Y>") (lit "a<X>b<Y>c<Y>d") 9 ∧
  5%nat ≠ 9%nat ∧
  ∃ i j k : nat,
    first_occ (lit "<X>") (lit "a<X>b<Y>c<Y>d") i ∧
    first_occ (lit "<Y>") (lit "a<X>b<Y>c<Y>d") j ∧
    last_occ (lit "<Y>") (lit "a<X>b<Y>c<Y>d") k ∧
    (j < k)%nat ∧
    spliceBetween (lit "a<X>b<Y>c<Y>d") (lit "<X>") (lit "<Y>") (lit "-")
      = Ok (take i (lit "a<X>b<Y>c<Y>d") ++ lit "-" ++ drop k (lit "a<X>b<Y>c<Y>d")) ∧
    drop k (lit "a<X>b<Y>c<Y>d") ≠ drop j (lit "a<X>b<Y>c<Y>d").
Proof.
  assert (occurs (lit "<X>") (lit "a<X>b<Y>c<Y>d")) as HS.
  { exists 1%nat, (lit "a"), (lit "b<Y>c<Y>d"). split; reflexivity. }
  assert (occurs_at (lit "<Y>") (lit "a<X>b<Y>c<Y>d") 5) as H1.
  { exists (lit "a<X>b"), (lit "c<Y>d"). split; reflexivity. }
  assert (occurs_at (lit "<Y>") (lit "a<X>b<Y>c<Y>d") 9) as H2.
  { exists (lit "a<X>b<Y>c"), (lit "d"). split; reflexivity. }
  assert (5%nat ≠ 9%nat) as Hneq by lia.
  split; [exact HS|]. split; [exact H1|]. split; [exact H2|]. split; [exact Hneq|].
  exact (C6_suffix_from_last_end_occurrence _ _ _ (lit "-") _ _ HS H1 H2 Hneq).
Defined.

(** C7. When both locators occur, the text of the end locator is kept in
    the output: the suffix the splice retains, [text[footer:]], is the end
    locator followed by the rest of the document, and the result is the
    prefix, the patch, the end locator and that rest. *)
Theorem C7_end_locator_preserved D S E P :
  occurs S D →
  occurs E D →
  ∃ (i : nat) (rest : str),
    first_occ S D i ∧
    slice_from D (rfind D E) = E ++ rest ∧
    spliceBetween D S E P = Ok (take i D ++ P ++ E ++ rest).
Proof.
  intros HS HE.
  apply occurs_first in HS as [i Hi]. apply occurs_last in HE as [k Hk].
  destruct (occurs_at_take_drop _ _ _ (proj1 Hk)) as (rest & _ & Hdrop).
  pose proof (occurs_at_bound _ _ _ (proj1 Hk)) as Hb.
  exists i, rest. split_and!; [done| |].
  - rewrite (proj1 (rfind_last_occ _ _ _) Hk), slice_from_nat by lia. done.
  - by rewrite (spliceBetween_present _ _ _ _ _ _ Hi Hk), Hdrop.
Qed.

Lemma C7_witness :
  occurs (lit "<X/>") (lit "ABC<X/>DEF<Y/>GHI") ∧
  occurs (lit "<Y/>") (lit "ABC<X/>DEF<Y/>GHI") ∧
  ∃ (i : nat) (rest : str),
    first_occ (lit "<X/>") (lit "ABC<X/>DEF<Y/>GHI") i ∧
    slice_from (lit "ABC<X/>DEF<Y/>GHI") (rfind (lit "ABC<X/>DEF<Y/>GHI") (lit "<Y/>"))
      = lit "<Y/>" ++ rest ∧
    spliceBetween (lit "ABC<X/>DEF<Y/>GHI") (lit "<X/>") (lit "<Y/>") (lit "-PATCH-")
      = Ok (take i (lit "ABC<X/>DEF<Y/>GHI") ++ lit "-PATCH-" ++ lit "<Y/>" ++ rest).
Proof.
  assert (occurs (lit "<X/>") (lit "ABC<X/>DEF<Y/>GHI")) as HS.
  { exists 3%nat, (lit "ABC"), (lit "DEF<Y/>GHI"). split; reflexivity. }
  assert (occurs (lit "<Y/>") (lit "ABC<X/>DEF<Y/>GHI")) as HE.
  { exists 10%nat, (lit "ABC<X/>DEF"), (lit "GHI"). split; reflexivity. }
  split; [exact HS|]. split; [exact HE|].
  exact (C7_end_locator_preserved _ _ _ (lit "-PATCH-") HS HE).
Defined.

(** C9. Scenario 2 of the specification: on ["ABC<X/>DEF<Y/>GHI"] with
    start locator ["<X/>"], end locator ["<Y/>"] and patch ["-PATCH-"],
    the splice returns ["ABC-PATCH-<Y/>GHI"], and the script run on a file
    with that content leaves it with the spliced text. *)
Theorem C9_scenario_2 :
  spliceBetween (lit "ABC<X/>DEF<Y/>GHI") (lit "<X/>") (lit "<Y/>") (lit "-PATCH-")
    = Ok (lit "ABC-PATCH-<Y/>GHI") ∧
  fix_script "modal.tsx" (lit "<X/>") (lit "<Y/>") (lit "-PATCH-")
      {[ "modal.tsx"%string := lit "ABC<X/>DEF<Y/>GHI" ]}
    = (Ok tt, {[ "modal.tsx"%string := lit "ABC-PATCH-<Y/>GHI" ]}).
Proof.
  assert (spliceBetween (lit "ABC<X/>DEF<Y/>GHI") (lit "<X/>") (lit "<Y/>") (lit "-PATCH-")
          = Ok (lit "ABC-PATCH-<Y/>GHI")) as Hsplice by (vm_compute; reflexivity).
  split; [exact Hsplice|].
  rewrite (fix_script_spliceBetween _ _ _ _ _ _ (lookup_singleton_eq _ _)), Hsplice.
  unfold persist, write_text. by rewrite insert_singleton_eq.
Qed.

End splice_properties.

(** ** Further properties of the [str] operations the scripts call *)

Section str_properties.
Import PyStr.
Context {char : Type} `{!EqDecision char}.
Implicit Types s sub : list char.

Lemma occurs_at_lookup sub s j m :
  occurs_at sub s j → (m < length sub)%nat → s !! (j + m)%nat = sub !! m.
Proof.
  intros (pre & post & -> & <-) Hm.
  rewrite lookup_app_r by lia.
  replace (length pre + m - length pre)%nat with m by lia.
  by rewrite lookup_app_l.
Qed.

Lemma occurs_at_app_l sub s t j : occurs_at sub s j → occurs_at sub (s ++ t) j.
Proof.
  intros (pre & post & -> & <-). exists pre, (post ++ t).
  by rewrite <-!app_assoc.
Qed.

Lemma occurs_at_app_r sub s t j :
  occurs_at sub t j → occurs_at sub (s ++ t) (length s + j).
Proof.
  intros (pre & post & -> & <-). exists (s ++ pre), post.
  rewrite <-app_assoc, length_app. done.
Qed.

(** An occurrence that ends inside a prefix of the text is an occurrence
    in that prefix. *)
Lemma occurs_at_take sub s j n :
  occurs_at sub s j → (j + length sub ≤ n)%nat → occurs_at sub (take n s) j.
Proof.
  intros (pre & post & -> & <-) Hn.
  exists pre, (take (n - length pre - length sub) post). split; [|done].
  rewrite take_app_ge by lia. f_equal.
  by rewrite take_app_ge by lia.
Qed.

(** An occurrence that starts inside a suffix of the text is an
    occurrence in that suffix. *)
Lemma occurs_at_drop sub s j n :
  occurs_at sub s j → (n ≤ j)%nat → occurs_at sub (drop n s) (j - n).
Proof.
  intros (pre & post & -> & <-) Hn.
  exists (drop n pre), post. split.
  - by rewrite drop_app_le by lia.
  - rewrite length_drop. done.
Qed.

(** X1. Cutting a text at any integer bound, negative or beyond the end,
    loses nothing: [s[:i] + s[i:]] is [s]; and the number of characters
    [s[i:]] keeps is [min(-i, len)] for a negative bound and
    [max(0, len - i)] otherwise. *)
Theorem X1_slices_split_the_text s (i : Z) :
  slice_to s i ++ slice_from s i = s ∧
  Z.of_nat (length (slice_from s i))
    = if decide (i < 0)
      then Z.min (- i) (Z.of_nat (length s))
      else Z.max 0 (Z.of_nat (length s) - i).
Proof.
  unfold slice_to, slice_from. split; [apply take_drop|].
  rewrite length_drop. unfold adjust. destruct (decide (i < 0)); lia.
Qed.

(** X2. [find] and [rfind] miss together; when they hit, [find] is at
    least 0 and at most [rfind], and the occurrence [rfind] reports fits
    into the text. *)
Theorem X2_find_rfind_bounds s sub :
  (find s sub = -1 ∧ rfind s sub = -1) ∨
  (0 ≤ find s sub ≤ rfind s sub ∧
   rfind s sub + Z.of_nat (length sub) ≤ Z.of_nat (length s)).
Proof.
  unfold find, rfind.
  destruct (find_from_cases sub s 0) as [[Hno ->]|(i & Hi & ->)].
  - left. split; [done|]. by apply rfind_absent.
  - right. destruct (occurs_last sub s) as [k Hk]; [by exists i; apply Hi|].
    pose proof (proj1 (rfind_last_occ _ _ _) Hk) as Hr. unfold rfind in Hr.
    rewrite Hr.
    pose proof (proj2 Hi _ (proj1 Hk)).
    pose proof (occurs_at_bound _ _ _ (proj1 Hk)). lia.
Qed.

(** X4. A substring longer than the text is never found: [find] and
    [rfind] give [-1] and [index] raises. *)
Theorem X4_longer_substring_never_found s sub :
  (length s < length sub)%nat →
  find s sub = -1 ∧ rfind s sub = -1 ∧ index s sub = None.
Proof.
  intros Hlen.
  assert (¬ occurs sub s) as Hno.
  { intros [j Hj]. apply occurs_at_bound in Hj. lia. }
  split_and!; [by apply find_absent|by apply rfind_absent|].
  unfold index. rewrite (proj1 (find_absent _ _) Hno). by rewrite decide_True.
Qed.

End str_properties.

Lemma X4_witness :
  (length (lit "ab") < length (lit "abc"))%nat ∧
  PyStr.find (lit "ab") (lit "abc") = -1 ∧
  PyStr.rfind (lit "ab") (lit "abc") = -1 ∧
  PyStr.index (lit "ab") (lit "abc") = None.
Proof.
  assert (length (lit "ab") < length (lit "abc"))%nat as Hlen by (vm_compute; lia).
  split; [exact Hlen|].
  exact (X4_longer_substring_never_found (lit "ab") (lit "abc") Hlen).
Defined.

(** ** Where the locators are found again after a splice *)

Section relocation.
Import PyStr.
Context {char : Type} `{!EqDecision char}.
Implicit Types s sub pre lead rest : list char.

(** Whatever is put in front of the suffix that starts at the last
    occurrence of [sub], the last occurrence of [sub] in the new text is
    the start of that suffix. *)
Lemma last_occ_splice sub s k pre :
  last_occ sub s k → last_occ sub (pre ++ drop k s) (length pre).
Proof.
  intros [Hk Hmax].
  pose proof (occurs_at_bound _ _ _ Hk) as Hb.
  split.
  - replace (length pre) with (length pre + (k - k))%nat by lia.
    apply occurs_at_app_r. by apply occurs_at_drop.
  - intros j Hj. destruct (decide (j ≤ length pre)%nat) as [|Hgt]; [done|].
    exfalso.
    apply (occurs_at_drop _ _ _ (length pre)) in Hj; [|lia].
    rewrite drop_app_length in Hj.
    apply (occurs_at_app_r _ (take k s)) in Hj.
    rewrite take_drop, length_take in Hj.
    apply Hmax in Hj. lia.
Qed.

(** A text [pre] without [sub], followed by a lead whose first character
    is not in [sub] and which does not hold the first character of [sub],
    followed by [sub]: the first occurrence is the one after the lead. *)
Lemma first_occ_behind_lead pre lead sub rest l0 lead' c0 sub' :
  lead = l0 :: lead' →
  sub = c0 :: sub' →
  l0 ∉ sub →
  c0 ∉ lead →
  ¬ occurs sub pre →
  first_occ sub (pre ++ lead ++ sub ++ rest) (length pre + length lead).
Proof.
  intros -> -> Hl0 Hc0 Hno. split.
  - exists (pre ++ l0 :: lead'), rest. by rewrite <-app_assoc, length_app.
  - intros j Hj.
    destruct (decide (length pre + length (l0 :: lead') ≤ j)%nat) as [|Hlt]; [done|].
    exfalso.
    destruct (decide (j + length (c0 :: sub') ≤ length pre)%nat) as [Hin|Hout].
    + apply Hno. exists j.
      apply (occurs_at_take _ _ _ (length pre)) in Hj; [|done].
      by rewrite take_app_length in Hj.
    + simpl in Hlt, Hout.
      destruct (decide (j < length pre)%nat) as [Hjp|Hjp].
      * assert (length pre - j < length (c0 :: sub'))%nat as Hm by (simpl; lia).
        pose proof (occurs_at_lookup _ _ _ _ Hj Hm) as Hlk.
        replace (j + (length pre - j))%nat with (length pre + 0)%nat in Hlk by lia.
        rewrite lookup_app_r in Hlk by lia.
        replace (length pre + 0 - length pre)%nat with 0%nat in Hlk by lia.
        simpl in Hlk.
        apply Hl0. by apply (list_elem_of_lookup_2 _ (length pre - j)).
      * assert (0 < length (c0 :: sub'))%nat as Hm by (simpl; lia).
        pose proof (occurs_at_lookup _ _ _ _ Hj Hm) as Hlk.
        rewrite Nat.add_0_r, lookup_app_r, lookup_app_l in Hlk by (simpl; lia).
        simpl in Hlk.
        apply Hc0. by apply (list_elem_of_lookup_2 _ (j - length pre)).
Qed.

End relocation.

(** ** Further properties of the two scripts *)

Section script_properties.
Import PyStr.
Implicit Types (D L S E P : str) (fs : filesystem).

(** The store after a run: untouched, or the script's own file replaced. *)
Lemma cut_script_store path L fs :
  (cut_script path L fs).2 = fs ∨
  ∃ D D', fs !! path = Some D ∧ (cut_script path L fs).2 = <[path := D']> fs.
Proof.
  destruct (fs !! path) as [D|] eqn:Hfs.
  - rewrite (cut_script_truncateAt _ _ _ _ Hfs).
    destruct (truncateAt D L) as [D'|e]; [right; by exists D, D'|by left].
  - left. by rewrite (cut_script_no_file _ _ _ Hfs).
Qed.

Lemma fix_script_store p S E P fs :
  (fix_script p S E P fs).2 = fs ∨
  ∃ D D', fs !! p = Some D ∧ (fix_script p S E P fs).2 = <[p := D']> fs.
Proof.
  destruct (fs !! p) as [D|] eqn:Hfs.
  - rewrite (fix_script_spliceBetween _ _ _ _ _ _ Hfs).
    destruct (spliceBetween D S E P) as [D'|e]; [right; by exists D, D'|by left].
  - left. by rewrite (fix_script_no_file _ _ _ _ _ Hfs).
Qed.

Lemma first_occ_nil D : first_occ [] D 0.
Proof. split; [by exists [], D|intros; lia]. Qed.

Lemma last_occ_nil D : last_occ [] D (length D).
Proof.
  split.
  - exists D, []. by rewrite app_nil_r.
  - intros j Hj. apply occurs_at_bound in Hj. simpl in Hj. lia.
Qed.

(** X3. The empty string is a locator that always matches: [find] puts it
    at 0 and [rfind] at the end of the text.  So with an empty needle the
    cut keeps nothing, and with both locators empty the splice replaces
    the whole document by the patch. *)
Theorem X3_empty_locators D P :
  find D [] = 0 ∧
  rfind D [] = Z.of_nat (length D) ∧
  truncateAt D [] = Ok [] ∧
  spliceBetween D [] [] P = Ok P.
Proof.
  pose proof (first_occ_nil D) as H0. pose proof (last_occ_nil D) as Hn.
  split_and!.
  - by apply (find_first_occ _ _ 0%nat).
  - by apply rfind_last_occ.
  - by rewrite (truncateAt_present _ _ _ H0), take_0.
  - rewrite (spliceBetween_present _ _ _ _ _ _ H0 Hn).
    by rewrite take_0, drop_all, app_nil_r.
Qed.







(** X9. Neither script touches a file other than its own: every other
    path reads the same before and after the run, whatever the outcome. *)
Theorem X9_other_files_untouched fs (path q : string) L S E P :
  q ≠ path →
  (cut_script path L fs).2 !! q = fs !! q ∧
  (fix_script path S E P fs).2 !! q = fs !! q.
Proof.
  intros Hq. split.
  - destruct (cut_script_store path L fs) as [->|(D & D' & _ & ->)]; [done|].
    by rewrite lookup_insert_ne.
  - destruct (fix_script_store path S E P fs) as [->|(D & D' & _ & ->)]; [done|].
    by rewrite lookup_insert_ne.
Qed.

Lemma X9_witness :
  "b.txt"%string ≠ "a.txt"%string ∧
  (cut_script "a.txt" (lit "<X/>")
     {[ "a.txt"%string := lit "ABC<X/>DEF"; "b.txt"%string := lit "<X/>" ]}).2
    !! "b.txt"%string
    = ({[ "a.txt"%string := lit "ABC<X/>DEF"; "b.txt"%string := lit "<X/>" ]} : filesystem)
        !! "b.txt"%string ∧
  (fix_script "a.txt" (lit "<X/>") (lit "F") (lit "-")
     {[ "a.txt"%string := lit "ABC<X/>DEF"; "b.txt"%string := lit "<X/>" ]}).2
    !! "b.txt"%string
    = ({[ "a.txt"%string := lit "ABC<X/>DEF"; "b.txt"%string := lit "<X/>" ]} : filesystem)
        !! "b.txt"%string.
Proof.
  assert ("b.txt"%string ≠ "a.txt"%string) as Hq by (vm_compute; discriminate).
  split; [exact Hq|].
  exact (X9_other_files_untouched _ _ _ _ _ _ _ Hq).
Defined.

(** X10. Neither script creates or removes a file: the set of paths of
    the store is the same after the run. *)
Theorem X10_no_file_created_or_removed fs (path : string) L S E P :
  dom (cut_script path L fs).2 = dom fs ∧
  dom (fix_script path S E P fs).2 = dom fs.
Proof.
  assert (∀ D D', fs !! path = Some D → dom (<[path := D']> fs) = dom fs) as Hdom.
  { intros D D' Hfs. rewrite dom_insert_L.
    assert (path ∈ dom fs) as Hin by (apply elem_of_dom; eauto).
    apply set_eq. intros q. rewrite elem_of_union, elem_of_singleton.
    split; [intros [->|]; done|by right]. }
  split.
  - destruct (cut_script_store path L fs) as [->|(D & D' & Hfs & ->)]; [done|].
    by eapply Hdom.
  - destruct (fix_script_store path S E P fs) as [->|(D & D' & Hfs & ->)]; [done|].
    by eapply Hdom.
Qed.

(** X11. The order of the two anchors is not checked.  When the last
    occurrence of the end locator lies at or before the first occurrence
    of the start locator, nothing is removed: the text between the two
    offsets is kept on both sides of the patch, and the result is longer
    than the document by the patch and that text. *)
Theorem X11_end_before_start_duplicates D S E P (i k : nat) :
  first_occ S D i →
  last_occ E D k →
  (k ≤ i)%nat →
  ∃ mid : str,
    length mid = (i - k)%nat ∧
    D = take k D ++ mid ++ drop i D ∧
    spliceBetween D S E P = Ok (take k D ++ mid ++ P ++ mid ++ drop i D).
Proof.
  intros Hi Hk Hki.
  pose proof (occurs_at_bound _ _ _ (proj1 Hi)) as Hb.
  assert (take i D = take k D ++ take (i - k) (drop k D)) as Hpre.
  { rewrite take_take_drop. f_equal. lia. }
  assert (drop k D = take (i - k) (drop k D) ++ drop i D) as Hsuf.
  { rewrite <-(take_drop (i - k) (drop k D)) at 1. rewrite drop_drop.
    do 2 f_equal. lia. }
  assert (length (take (i - k) (drop k D)) = (i - k)%nat) as Hlen.
  { rewrite length_take, length_drop. lia. }
  rewrite (spliceBetween_present _ _ _ _ _ _ Hi Hk).
  revert Hpre Hsuf Hlen. generalize (take (i - k) (drop k D)) as mid.
  intros mid Hpre Hsuf Hlen. exists mid. split_and!.
  - done.
  - rewrite <-Hsuf. by rewrite take_drop.
  - rewrite Hpre, Hsuf. by rewrite <-!app_assoc.
Qed.

Lemma X11_witness :
  first_occ (lit "<X>") (lit "a<Y>b<X>c") 5 ∧
  last_occ (lit "<Y>") (lit "a<Y>b<X>c") 1 ∧
  (1 ≤ 5)%nat ∧
  ∃ mid : str,
    length mid = (5 - 1)%nat ∧
    lit "a<Y>b<X>c" = take 1 (lit "a<Y>b<X>c") ++ mid ++ drop 5 (lit "a<Y>b<X>c") ∧
    spliceBetween (lit "a<Y>b<X>c") (lit "<X>") (lit "<Y>") (lit "-")
      = Ok (take 1 (lit "a<Y>b<X>c") ++ mid ++ lit "-" ++ mid ++ drop 5 (lit "a<Y>b<X>c")).
Proof.
  assert (first_occ (lit "<X>") (lit "a<Y>b<X>c") 5) as Hi
    by (apply find_first_occ; vm_compute; reflexivity).
  assert (last_occ (lit "<Y>") (lit "a<Y>b<X>c") 1) as Hk
    by (apply rfind_last_occ; vm_compute; reflexivity).
  assert (1 ≤ 5)%nat as Hki by lia.
  split; [exact Hi|]. split; [exact Hk|]. split; [exact Hki|].
  exact (X11_end_before_start_duplicates _ _ _ (lit "-") _ _ Hi Hk Hki).
Defined.

(** X12. Patching with the text that is already between the two anchors
    changes nothing: when the start locator's first occurrence is not
    after the end locator's last one, the splice with [D[i:k]] as patch
    returns [D], and the script leaves the store as it was. *)
Theorem X12_patch_with_present_text_is_identity D S E (i k : nat) :
  first_occ S D i →
  last_occ E D k →
  (i ≤ k)%nat →
  spliceBetween D S E (take (k - i) (drop i D)) = Ok D ∧
  ∀ fs (p : string), fs !! p = Some D →
    fix_script p S E (take (k - i) (drop i D)) fs = (Ok tt, fs).
Proof.
  intros Hi Hk Hik.
  assert (spliceBetween D S E (take (k - i) (drop i D)) = Ok D) as Hsplice.
  { rewrite (spliceBetween_present _ _ _ _ _ _ Hi Hk). f_equal.
    rewrite app_assoc, take_take_drop.
    replace (i + (k - i))%nat with k by lia. apply take_drop. }
  split; [done|]. intros fs p Hfs.
  rewrite (fix_script_spliceBetween _ _ _ _ _ _ Hfs), Hsplice.
  unfold persist, write_text. by rewrite insert_id.
Qed.

Lemma X12_witness :
  first_occ (lit "<X/>") (lit "ABC<X/>DEF<Y/>GHI") 3 ∧
  last_occ (lit "<Y/>") (lit "ABC<X/>DEF<Y/>GHI") 10 ∧
  (3 ≤ 10)%nat ∧
  spliceBetween (lit "ABC<X/>DEF<Y/>GHI") (lit "<X/>") (lit "<Y/>")
      (take (10 - 3) (drop 3 (lit "ABC<X/>DEF<Y/>GHI")))
    = Ok (lit "ABC<X/>DEF<Y/>GHI") ∧
  ∀ fs (p : string), fs !! p = Some (lit "ABC<X/>DEF<Y/>GHI") →
    fix_script p (lit "<X/>") (lit "<Y/>")
      (take (10 - 3) (drop 3 (lit "ABC<X/>DEF<Y/>GHI"))) fs = (Ok tt, fs).
Proof.
  assert (first_occ (lit "<X/>") (lit "ABC<X/>DEF<Y/>GHI") 3) as Hi
    by (apply find_first_occ; vm_compute; reflexivity).
  assert (last_occ (lit "<Y/>") (lit "ABC<X/>DEF<Y/>GHI") 10) as Hk
    by (apply rfind_last_occ; vm_compute; reflexivity).
  assert (3 ≤ 10)%nat as Hik by lia.
  split; [exact Hi|]. split; [exact Hk|]. split; [exact Hik|].
  exact (X12_patch_with_present_text_is_identity _ _ _ _ _ Hi Hk Hik).
Defined.

(** X13. After a splice the end locator is found again exactly where the
    retained suffix starts, whatever the patch holds: [rfind] on the
    result gives the length of prefix and patch, and the suffix it cuts
    there is the suffix of the first run. *)
Theorem X13_end_locator_found_again_at_suffix D S E P (i k : nat) :
  first_occ S D i →
  last_occ E D k →
  rfind (take i D ++ P ++ drop k D) E = Z.of_nat i + Z.of_nat (length P) ∧
  slice_from (take i D ++ P ++ drop k D) (rfind (take i D ++ P ++ drop k D) E)
    = drop k D.
Proof.
  intros Hi Hk.
  pose proof (occurs_at_bound _ _ _ (proj1 Hi)) as Hb.
  pose proof (last_occ_splice _ _ _ (take i D ++ P) Hk) as Hlast.
  rewrite <-app_assoc in Hlast.
  apply rfind_last_occ in Hlast. rewrite Hlast.
  rewrite slice_from_nat by (rewrite !length_app; lia).
  split.
  - rewrite length_app, length_take. lia.
  - rewrite app_assoc. apply drop_app_length.
Qed.

Lemma X13_witness :
  first_occ (lit "<X/>") (lit "ABC<X/>DEF<Y/>GHI") 3 ∧
  last_occ (lit "<Y/>") (lit "ABC<X/>DEF<Y/>GHI") 10 ∧
  rfind (take 3 (lit "ABC<X/>DEF<Y/>GHI") ++ lit "<Y/><Y/>" ++ drop 10 (lit "ABC<X/>DEF<Y/>GHI"))
      (lit "<Y/>")
    = Z.of_nat 3 + Z.of_nat (length (lit "<Y/><Y/>")) ∧
  slice_from
      (take 3 (lit "ABC<X/>DEF<Y/>GHI") ++ lit "<Y/><Y/>" ++ drop 10 (lit "ABC<X/>DEF<Y/>GHI"))
      (rfind (take 3 (lit "ABC<X/>DEF<Y/>GHI") ++ lit "<Y/><Y/>"
                ++ drop 10 (lit "ABC<X/>DEF<Y/>GHI")) (lit "<Y/>"))
    = drop 10 (lit "ABC<X/>DEF<Y/>GHI").
Proof.
  assert (first_occ (lit "<X/>") (lit "ABC<X/>DEF<Y/>GHI") 3) as Hi
    by (apply find_first_occ; vm_compute; reflexivity).
  assert (last_occ (lit "<Y/>") (lit "ABC<X/>DEF<Y/>GHI") 10) as Hk
    by (apply rfind_last_occ; vm_compute; reflexivity).
  split; [exact Hi|]. split; [exact Hk|].
  exact (X13_end_locator_found_again_at_suffix _ _ _ (lit "<Y/><Y/>") _ _ Hi Hk).
Defined.

(** *** Running [temp_fix.py] again *)

(** The replacement block of the script is its lead, the start locator
    and the rest of the markup. *)
Lemma new_block_shape :
  new_block
  = new_block_lead ++ start_locator
    ++ (lit " ? (" ++ newline
        ++ concat ((λ l, l ++ newline) <$> drop 2 new_block_lines)).
Proof. reflexivity. Qed.

Lemma start_locator_in_new_block : occurs start_locator new_block.
Proof.
  eexists 13%nat, new_block_lead, _.
  split; [apply new_block_shape|reflexivity].
Qed.

(** The script run on the sample without footer, for any block. *)
Lemma temp_fix_on_sample_modal (block : str) :
  temp_fix block {[ temp_fix_path := sample_modal ]}
  = (Ok tt, {[ temp_fix_path := lit "<p>" ++ block ++ lit ">" ]}).
Proof.
  assert (¬ occurs footer_locator sample_modal) as Hno
    by (apply rfind_absent; vm_compute; reflexivity).
  assert (first_occ start_locator sample_modal 3) as Hi
    by (apply find_first_occ; vm_compute; reflexivity).
  unfold temp_fix.
  rewrite (fix_script_spliceBetween _ _ _ _ _ _ (lookup_singleton_eq _ _)).
  rewrite (spliceBetween_footer_absent _ _ _ _ _ Hi Hno).
  unfold persist, write_text. rewrite insert_singleton_eq.
  replace (take 3 sample_modal) with (lit "<p>") by (vm_compute; reflexivity).
  replace (slice_from sample_modal (-1)) with (lit ">") by (vm_compute; reflexivity).
  done.
Qed.

Lemma start_locator_nonempty : start_locator ≠ [].
Proof. vm_compute. discriminate. Qed.

(** What a successful run has done. *)
Lemma fix_script_ok_inv p S E P fs fs' :
  fix_script p S E P fs = (Ok tt, fs') →
  ∃ D (i : nat),
    fs !! p = Some D ∧ first_occ S D i ∧
    fs' = <[p := take i D ++ P ++ slice_from D (rfind D E)]> fs.
Proof.
  intros Hrun. destruct (fs !! p) as [D|] eqn:Hfs.
  - rewrite (fix_script_spliceBetween _ _ _ _ _ _ Hfs) in Hrun.
    destruct (find_from_cases S D 0) as [[Hno _]|(i & Hi & _)].
    + by rewrite (spliceBetween_start_absent _ _ _ _ Hno) in Hrun.
    + exists D, i. split; [done|]. split; [done|].
      pose proof (occurs_at_bound _ _ _ (proj1 Hi)) as Hb.
      unfold spliceBetween in Hrun. rewrite (index_present _ _ _ Hi) in Hrun.
      rewrite slice_to_nat in Hrun by lia.
      unfold persist, write_text in Hrun. congruence.
  - by rewrite (fix_script_no_file _ _ _ _ _ Hfs) in Hrun.
Qed.

(** A patch that brings the start locator back behind a lead: the second
    splice cuts behind the lead, so the lead is kept once more. *)
Lemma spliceBetween_twice D S E lead tail (i k : nat) l0 lead' c0 S' :
  lead = l0 :: lead' →
  S = c0 :: S' →
  l0 ∉ S →
  c0 ∉ lead →
  first_occ S D i →
  last_occ E D k →
  spliceBetween (take i D ++ (lead ++ S ++ tail) ++ drop k D) S E (lead ++ S ++ tail)
    = Ok (take i D ++ lead ++ (lead ++ S ++ tail) ++ drop k D).
Proof.
  intros Hlead HS Hl0 Hc0 Hi Hk.
  pose proof (occurs_at_bound _ _ _ (proj1 Hi)) as Hb.
  assert (S ≠ []) as Hne by (by rewrite HS).
  pose proof (take_first_occ_absent _ _ _ Hne Hi) as Hno.
  pose proof (first_occ_behind_lead (take i D) lead S (tail ++ drop k D)
                _ _ _ _ Hlead HS Hl0 Hc0 Hno) as Hfirst.
  pose proof (last_occ_splice _ _ _ (take i D ++ lead ++ S ++ tail) Hk) as Hlast.
  replace (take i D ++ (lead ++ S ++ tail) ++ drop k D)
    with (take i D ++ lead ++ S ++ tail ++ drop k D) by (by rewrite <-!app_assoc).
  replace ((take i D ++ lead ++ S ++ tail) ++ drop k D)
    with (take i D ++ lead ++ S ++ tail ++ drop k D) in Hlast by (by rewrite <-!app_assoc).
  rewrite (spliceBetween_present _ _ _ _ _ _ Hfirst Hlast). f_equal.
  rewrite <-length_app.
  replace (take i D ++ lead ++ S ++ tail ++ drop k D)
    with ((take i D ++ lead) ++ S ++ tail ++ drop k D) at 1 by (by rewrite <-!app_assoc).
  rewrite take_app_length.
  replace (take i D ++ lead ++ S ++ tail ++ drop k D)
    with ((take i D ++ lead ++ S ++ tail) ++ drop k D) by (by rewrite <-!app_assoc).
  rewrite drop_app_length. by rewrite <-!app_assoc.
Qed.

(** X14. [temp_fix.py] is not idempotent.  On a document that holds both
    locators the first run writes prefix, block and suffix; the block
    holds the start locator behind a line feed and twelve spaces, so the
    second run succeeds as well and writes those thirteen characters once
    more in front of the block. *)
Theorem X14_temp_fix_second_run_repeats_lead fs D :
  fs !! temp_fix_path = Some D →
  occurs start_locator D →
  occurs footer_locator D →
  ∃ i k : nat,
    first_occ start_locator D i ∧ last_occ footer_locator D k ∧
    temp_fix_py fs
      = (Ok tt, <[temp_fix_path := take i D ++ new_block ++ drop k D]> fs) ∧
    temp_fix_py (<[temp_fix_path := take i D ++ new_block ++ drop k D]> fs)
      = (Ok tt, <[temp_fix_path := take i D ++ new_block_lead ++ new_block ++ drop k D]> fs).
Proof.
  intros Hfs HS HE.
  apply occurs_first in HS as [i Hi]. apply occurs_last in HE as [k Hk].
  exists i, k. split; [done|]. split; [done|].
  unfold temp_fix_py, temp_fix. split.
  - rewrite (fix_script_spliceBetween _ _ _ _ _ _ Hfs).
    by rewrite (spliceBetween_present _ _ _ _ _ _ Hi Hk).
  - rewrite (fix_script_spliceBetween _ _ _ _ _ (take i D ++ new_block ++ drop k D))
      by apply lookup_insert_eq.
    assert (spliceBetween (take i D ++ new_block ++ drop k D)
              start_locator footer_locator new_block
            = Ok (take i D ++ new_block_lead ++ new_block ++ drop k D)) as ->.
    { rewrite new_block_shape.
      apply (spliceBetween_twice D start_locator footer_locator new_block_lead
               _ i k 10%N (lit "            ")
               123%N (lit "activeSubtab === " ++ dquote ++ lit "audience" ++ dquote)).
      - reflexivity.
      - reflexivity.
      - apply (bool_decide_unpack _). vm_compute. exact I.
      - apply (bool_decide_unpack _). vm_compute. exact I.
      - done.
      - done. }
    unfold persist, write_text. by rewrite insert_insert_eq.
Qed.

Lemma X14_witness :
  ({[ temp_fix_path := sample_modal_with_footer ]} : filesystem) !! temp_fix_path
    = Some sample_modal_with_footer ∧
  occurs start_locator sample_modal_with_footer ∧
  occurs footer_locator sample_modal_with_footer ∧
  ∃ i k : nat,
    first_occ start_locator sample_modal_with_footer i ∧
    last_occ footer_locator sample_modal_with_footer k ∧
    temp_fix_py {[ temp_fix_path := sample_modal_with_footer ]}
      = (Ok tt, <[temp_fix_path := take i sample_modal_with_footer ++ new_block
                                     ++ drop k sample_modal_with_footer]>
                  {[ temp_fix_path := sample_modal_with_footer ]}) ∧
    temp_fix_py (<[temp_fix_path := take i sample_modal_with_footer ++ new_block
                                      ++ drop k sample_modal_with_footer]>
                   {[ temp_fix_path := sample_modal_with_footer ]})
      = (Ok tt, <[temp_fix_path := take i sample_modal_with_footer ++ new_block_lead
                                     ++ new_block ++ drop k sample_modal_with_footer]>
                  {[ temp_fix_path := sample_modal_with_footer ]}).
Proof.
  assert (({[ temp_fix_path := sample_modal_with_footer ]} : filesystem) !! temp_fix_path
          = Some sample_modal_with_footer) as Hfs by (vm_compute; reflexivity).
  assert (occurs start_locator sample_modal_with_footer) as HS.
  { exists 3%nat, (lit "<p>"),
      (lit " ? 1 : 2}" ++ newline ++ footer_locator ++ lit "</div>").
    split; reflexivity. }
  assert (occurs footer_locator sample_modal_with_footer) as HE.
  { exists 41%nat, (lit "<p>" ++ start_locator ++ lit " ? 1 : 2}" ++ newline),
      (lit "</div>").
    split; reflexivity. }
  split; [exact Hfs|]. split; [exact HS|]. split; [exact HE|].
  exact (X14_temp_fix_second_run_repeats_lead _ _ Hfs HS HE).
Defined.

(** X15. Once [temp_fix.py] has succeeded it can always be run again:
    the file it has written holds the start locator (the block brings
    it), so the next run ends with exit status 0 too, also when the end
    locator was missing. *)
Theorem X15_temp_fix_can_be_rerun fs fs' :
  temp_fix_py fs = (Ok tt, fs') →
  (∃ T, fs' !! temp_fix_path = Some T ∧ occurs start_locator T) ∧
  exit_status (temp_fix_py fs').1 = 0.
Proof.
  unfold temp_fix_py, temp_fix. intros Hrun.
  apply fix_script_ok_inv in Hrun as (D & i & Hfs & Hi & ->).
  assert (occurs start_locator
            (take i D ++ new_block ++ slice_from D (rfind D footer_locator))) as Hocc.
  { destruct start_locator_in_new_block as [j Hj].
    exists (length (take i D) + j)%nat.
    apply occurs_at_app_r. by apply occurs_at_app_l. }
  split.
  - eexists. split; [apply lookup_insert_eq|done].
  - apply occurs_first in Hocc as [j Hj].
    rewrite (fix_script_spliceBetween _ _ _ _ _ _ (lookup_insert_eq _ _ _)).
    unfold spliceBetween. by rewrite (index_present _ _ _ Hj).
Qed.

Lemma X15_witness :
  temp_fix_py {[ temp_fix_path := sample_modal ]}
    = (Ok tt, {[ temp_fix_path := lit "<p>" ++ new_block ++ lit ">" ]}) ∧
  (∃ T, ({[ temp_fix_path := lit "<p>" ++ new_block ++ lit ">" ]} : filesystem)
          !! temp_fix_path = Some T ∧ occurs start_locator T) ∧
  exit_status (temp_fix_py {[ temp_fix_path := lit "<p>" ++ new_block ++ lit ">" ]}).1 = 0.
Proof.
  assert (temp_fix_py {[ temp_fix_path := sample_modal ]}
    = (Ok tt, {[ temp_fix_path := lit "<p>" ++ new_block ++ lit ">" ]})) as Hrun
    by apply temp_fix_on_sample_modal.
  split; [exact Hrun|].
  exact (X15_temp_fix_can_be_rerun _ _ Hrun).
Defined.

End script_properties.
